(** * own-dex: the token-swap walkthrough of [src/exercise.ts]

    [performSwapAsync] is sequential orchestration glue: it reads the sell
    token's decimals and balance, checks the balance, reads the allowance of
    the 0x ERC20 proxy, approves if needed, asks the 0x API for a quote and
    submits the transaction of that quote.

    The embedding is shallow.  An [async] function becomes a term of the
    free monad [Async]: every [await] of an external promise is an [Await]
    node that holds the call and the continuation receiving its result,
    [alert] and [console.log] are [Effect] nodes, [throw] is [Throw], and
    [try ... catch], which the source does not use, is [TryCatch].
    A run against a [World] (the answers of chain, API and wallet) yields
    the trace of events and the outcome of the returned promise. *)

From Stdlib Require Import ZArith QArith Qabs Qround Qpower.
From Stdlib Require Import String Ascii List Bool Lia Lqa.
From Stdlib Require Import DecimalString DecimalZ DecimalPos.
Import ListNotations.
Local Open Scope string_scope.

(** ** Numbers *)

(** A JavaScript [number] is an IEEE 754 double.  It is modelled by a
    rational that stands for the double nearest to it.  A number handed to
    the program is the rational of its decimal notation (what [String(n)]
    prints), which is what [new BigNumber(n)] reads; a number that
    [toNumber] returns is the exact value of the double.  Comparisons
    compare the doubles.  NaN and the infinities are left out. *)
Definition number : Type := Q.

(** Rounding a rational to the nearest double: 53 bits of mantissa, ties to
    the even mantissa, subnormals below [2 ^ -1022].  Above the largest
    double the rounding goes on with 53 bits, where a real double overflows
    to infinity. *)
Module Double.

(** [2 ^ e]. *)
Definition pow2 (e : Z) : Q := 2 ^ e.

(** The exponent of the binade of a positive [x]:
    [2 ^ ilog2 x <= x < 2 ^ (ilog2 x + 1)]. *)
Definition ilog2 (x : Q) : Z :=
  let e := (Z.log2 (Qnum x) - Z.log2 (Zpos (Qden x)))%Z in
  if Qle_bool (pow2 e) x then e else (e - 1)%Z.

(** The exponent of the smallest subnormal. *)
Definition emin : Z := (-1074)%Z.

(** The exponent of the last bit kept of a positive [x]. *)
Definition expo (x : Q) : Z := Z.max (ilog2 x - 52) emin.

(** The nearest integer, the even one of two equally near. *)
Definition rne (t : Q) : Z :=
  let f := Qfloor t in
  match Qcompare (t - inject_Z f) (1 # 2) with
  | Lt => f
  | Gt => (f + 1)%Z
  | Eq => if Z.even f then f else (f + 1)%Z
  end.

Definition round_pos (x : Q) : Q :=
  let e := expo x in
  inject_Z (rne (x * pow2 (- e))) * pow2 e.

(** The double nearest to [x]. *)
Definition round (x : Q) : Q :=
  match Qnum x with
  | Z0 => 0
  | Zpos _ => round_pos x
  | Zneg _ => - round_pos (- x)
  end.

End Double.

(** [a < b] on numbers: the doubles are compared. *)
Definition number_lt (a b : number) : bool :=
  negb (Qle_bool (Double.round b) (Double.round a)).

(** An unsigned integer decoded from an ABI return value ([uint8],
    [uint256]); the contract wrapper hands it over as a BigNumber. *)
Definition uint : Type := N.

(** bignumber.js as [@0x/utils] configures it: exact decimal arithmetic,
    [DECIMAL_PLACES] for division, rounding mode [ROUND_HALF_UP]. *)
Module BigNumber.

Definition t : Type := Q.

Definition DECIMAL_PLACES : nat := 78.

Definition of_uint (n : uint) : t := inject_Z (Z.of_N n).

(** [new BigNumber(n)] for a number [n]: the decimal notation of [n], read
    exactly. *)
Definition of_number (n : number) : t := n.

(** [x.toNumber()]: the double nearest to [x]. *)
Definition toNumber (x : t) : number := Double.round x.

(** [n.toNumber()] for an unsigned integer, used as an exponent. *)
Definition uint_toNumber (n : uint) : N := n.

(** [new BigNumber(10).pow(decimals)]. *)
Definition pow10 (decimals : N) : t := inject_Z (10 ^ Z.of_N decimals).

(** ROUND_HALF_UP to [dp] decimal places: to the nearest neighbour, and
    away from zero when both are equally near. *)
Definition round_half_up (dp : nat) (x : t) : t :=
  let s := (10 ^ Z.of_nat dp)%Z in
  let n := Qnum x in
  let d := Zpos (Qden x) in
  let m := ((2 * Z.abs n * s + d) / (2 * d))%Z in
  Qmake (Z.sgn n * m) (Z.to_pos s).

(** [x.decimalPlaces(dp)]. *)
Definition decimalPlaces (dp : nat) (x : t) : t := round_half_up dp x.

(** [x.div(y)]: the quotient rounded to [DECIMAL_PLACES]. *)
Definition div (x y : t) : t := round_half_up DECIMAL_PLACES (x / y).

(** [x.times(y)] is exact. *)
Definition times (x y : t) : t := x * y.

(** [x.decimalPlaces() !== 0]: [x] has a fractional part. *)
Definition hasDecimals (x : t) : bool :=
  negb (Z.rem (Qnum x) (Zpos (Qden x)) =? 0)%Z.

(** The integer [x] stands for when it has no fractional part. *)
Definition to_Z (x : t) : Z := (Qnum x / Zpos (Qden x))%Z.

(** [x.toString()] of an integer: plain decimal notation (EXPONENTIAL_AT
    is set to 1000). *)
Definition toString (x : t) : string :=
  NilZero.string_of_int (Z.to_int (to_Z x)).

End BigNumber.

(** ** Exceptions *)

(** The values a promise is rejected with.  [Error m] is [new Error(m)];
    [InvalidUnitAmount a] stands for the error of
    [Web3Wrapper.toBaseUnitAmount], whose message is
    "Invalid unit amount: <a> - Too many decimal places". *)
Inductive exception : Type :=
| Error (message : string)
| InvalidUnitAmount (amount : number).

(** The two static helpers of [@0x/web3-wrapper] the function calls. *)
Module Web3Wrapper.

(** [toUnitAmount(amount, decimals)]: [amount.div(10 ** decimals)].  Its
    check of the argument passes on every unsigned integer. *)
Definition toUnitAmount (amount : BigNumber.t) (decimals : N) : BigNumber.t :=
  let aUnit := BigNumber.pow10 decimals in
  BigNumber.div amount aUnit.

(** [toBaseUnitAmount(amount, decimals)]: [10 ** decimals * amount], and
    an error when the product has a fractional part. *)
Definition toBaseUnitAmount (amount : number) (decimals : N)
  : exception + BigNumber.t :=
  let unit := BigNumber.pow10 decimals in
  let baseUnitAmount := BigNumber.times unit (BigNumber.of_number amount) in
  if BigNumber.hasDecimals baseUnitAmount
  then inl (InvalidUnitAmount amount)
  else inr (inject_Z (BigNumber.to_Z baseUnitAmount)).

End Web3Wrapper.

(** ** Data *)

(** A JSON-RPC provider, known by the endpoint it talks to. *)
Record SupportedProvider : Type := { endpoint : string }.

(** Modelled from the spec: [./misc] is absent; the token wrapper is built
    from an address and a provider (source lines 26-29) and exposes
    [address]. *)
Record ERC20TokenContract : Type :=
  { address : string;
    web3Provider : SupportedProvider }.

(** [new Web3Wrapper(provider)]. *)
Record Web3WrapperClient : Type := { provider_of : SupportedProvider }.

(** [ChainId] and the address table of [@0x/contract-addresses]. *)
Inductive ChainId : Type := Mainnet | Ropsten | Rinkeby | Kovan | Ganache.

Record ContractAddresses : Type := { erc20Proxy : string }.

(** Modelled from the spec: [./misc] is absent; the query of the swap-quote
    endpoint has the four fields the source fills in (lines 135-140). *)
Record ZeroExSwapAPIParams : Type :=
  { buyToken : string;
    sellToken : string;
    sellAmount : string;
    takerAddress : string }.

(** Modelled from the spec: [./misc] is absent; the swap quote carries the
    transaction fields the source reads (lines 155-159) and [orders]. *)
Module Quote.
Record t : Type :=
  { to : string;
    data : string;
    gas : string;
    gasPrice : string;
    value : string;
    orders : list string }.
End Quote.
Definition GetSwapQuoteResponse : Type := Quote.t.

(** [TxData] of [@0x/web3-wrapper]. *)
Module TxData.
Record t : Type :=
  { from : string;
    to : string;
    data : string;
    gas : string;
    gasPrice : string;
    value : string }.
End TxData.

(** The response object of axios. *)
Record AxiosResponse : Type := { response_data : GetSwapQuoteResponse }.

Record TransactionReceipt : Type := { transactionHash : string }.

(** ** Calls, effects and the [Async] monad *)

(** The awaited external calls. *)
Inductive Call : Type :=
| decimals_callAsync (token : ERC20TokenContract)
| balanceOf_callAsync (token : ERC20TokenContract) (owner : string)
| allowance_callAsync (token : ERC20TokenContract) (owner spender : string)
| approve_awaitTransactionSuccessAsync
    (token : ERC20TokenContract) (spender : string) (amount : BigNumber.t)
    (txFrom : string)
| axios_get (url : string) (params : ZeroExSwapAPIParams)
| sendTransactionAsync (client : Web3WrapperClient) (txData : TxData.t)
| awaitTransactionSuccessAsync (client : Web3WrapperClient) (txHash : string).

(** What each call resolves to. *)
Definition Resp (c : Call) : Type :=
  match c with
  | decimals_callAsync _ => uint
  | balanceOf_callAsync _ _ => uint
  | allowance_callAsync _ _ _ => uint
  | approve_awaitTransactionSuccessAsync _ _ _ _ => TransactionReceipt
  | axios_get _ _ => AxiosResponse
  | sendTransactionAsync _ _ => string
  | awaitTransactionSuccessAsync _ _ => TransactionReceipt
  end.

Inductive LogValue : Type :=
| LogString (s : string)
| LogReceipt (r : TransactionReceipt)
| LogQuote (q : GetSwapQuoteResponse)
| LogOrders (os : list string).

(** Synchronous effects that do not fail. *)
Inductive SideEffect : Type :=
| alert (message : string)
| console_log (v : LogValue).

(** The body of an async function.  [TryCatch body handler k] is
    [try { body } catch (e) { handler e }] followed by [k]; the functions of
    the source have none. *)
Inductive Async (A : Type) : Type :=
| Return (a : A)
| Throw (e : exception)
| Await (c : Call) (k : Resp c -> Async A)
| Effect (e : SideEffect) (k : Async A)
| TryCatch (body : Async unit) (handler : exception -> Async unit) (k : Async A).

Arguments Return {A} a.
Arguments Throw {A} e.
Arguments Await {A} c k.
Arguments Effect {A} e k.
Arguments TryCatch {A} body handler k.

Fixpoint bind {A B : Type} (p : Async A) (f : A -> Async B) : Async B :=
  match p with
  | Return a => f a
  | Throw e => Throw e
  | Await c k => Await c (fun r => bind (k r) f)
  | Effect e k => Effect e (bind k f)
  | TryCatch body handler k => TryCatch body handler (bind k f)
  end.

(** A program without [try ... catch]. *)
Inductive handler_free {A : Type} : Async A -> Prop :=
| hf_Return a : handler_free (Return a)
| hf_Throw e : handler_free (Throw e)
| hf_Await c k : (forall r, handler_free (k r)) -> handler_free (Await c k)
| hf_Effect e k : handler_free k -> handler_free (Effect e k).

(** [await c]. *)
Definition await (c : Call) : Async (Resp c) := Await c Return.

Definition perform (e : SideEffect) : Async unit := Effect e (Return tt).

(** A synchronous library call that may throw. *)
Definition lift {A : Type} (r : exception + A) : Async A :=
  match r with
  | inl e => Throw e
  | inr a => Return a
  end.

Declare Scope async_scope.
Delimit Scope async_scope with async.
Notation "x <- p ;; q" := (bind p (fun x => q))
  (at level 61, p at next level, right associativity) : async_scope.
Notation "p ;; q" := (bind p (fun _ => q))
  (at level 61, right associativity) : async_scope.
Local Open Scope async_scope.

(** ** Runs *)

(** The environment: its answer to the [n]-th awaited call of a run, a
    rejection or a value. *)
Definition World : Type := nat -> forall c : Call, exception + Resp c.

Inductive Event : Type :=
| Awaited (c : Call) (r : exception + Resp c)
| Performed (e : SideEffect).

(** How the promise of an async function settles: fulfilled, rejected by a
    [throw] executed in the function (or in a library function it calls),
    or rejected because an awaited promise was rejected. *)
Inductive Outcome (A : Type) : Type :=
| Fulfilled (a : A)
| Thrown (e : exception)
| Rejected (e : exception).

Arguments Fulfilled {A} a.
Arguments Thrown {A} e.
Arguments Rejected {A} e.

(** How many calls a trace awaited. *)
Fixpoint awaits (t : list Event) : nat :=
  match t with
  | [] => 0
  | Awaited _ _ :: t' => S (awaits t')
  | Performed _ :: t' => awaits t'
  end.

Fixpoint run {A : Type} (w : World) (n : nat) (p : Async A)
  : list Event * Outcome A :=
  match p with
  | Return a => ([], Fulfilled a)
  | Throw e => ([], Thrown e)
  | Await c k =>
      match w n c with
      | inl e => ([Awaited c (inl e)], Rejected e)
      | inr v => let (t, o) := run w (S n) (k v) in (Awaited c (inr v) :: t, o)
      end
  | Effect e k => let (t, o) := run w n k in (Performed e :: t, o)
  | TryCatch body handler k =>
      let (t1, o1) := run w n body in
      let caught e :=
        let (t2, o2) := run w (n + awaits t1) (handler e) in
        match o2 with
        | Fulfilled _ =>
            let (t3, o3) := run w (n + awaits t1 + awaits t2) k in
            ((t1 ++ t2 ++ t3)%list, o3)
        | Thrown e' => ((t1 ++ t2)%list, Thrown e')
        | Rejected e' => ((t1 ++ t2)%list, Rejected e')
        end in
      match o1 with
      | Fulfilled _ =>
          let (t2, o2) := run w (n + awaits t1) k in ((t1 ++ t2)%list, o2)
      | Thrown e => caught e
      | Rejected e => caught e
      end
  end.

Definition trace {A : Type} (w : World) (p : Async A) : list Event :=
  fst (run w 0 p).

Definition outcome {A : Type} (w : World) (p : Async A) : Outcome A :=
  snd (run w 0 p).

(** ** The program *)

Section Exercise.

(** The address table of [@0x/contract-addresses]. *)
Variable getContractAddressesForChainOrThrow : ChainId -> ContractAddresses.

Definition zeroExDeployedAddresses : ContractAddresses :=
  getContractAddressesForChainOrThrow Kovan.

Definition convertValueFromHumanToEthereum
  (tokenWrapper : ERC20TokenContract) (unitAmount : number)
  : Async BigNumber.t :=
  d <- await (decimals_callAsync tokenWrapper) ;;
  let decimals := BigNumber.uint_toNumber d in
  lift (Web3Wrapper.toBaseUnitAmount unitAmount decimals).

Definition performSwapAsync
  (buyTokenWrapper sellTokenWrapper : ERC20TokenContract)
  (amountToSellUnitAmount : number) (fromAddress : string)
  (provider : SupportedProvider) : Async unit :=
  (* Step #1 *)
  d <- await (decimals_callAsync sellTokenWrapper) ;;
  let decimals := BigNumber.uint_toNumber d in
  b <- await (balanceOf_callAsync sellTokenWrapper fromAddress) ;;
  let tokenBalance :=
    BigNumber.toNumber
      (BigNumber.decimalPlaces 2
         (Web3Wrapper.toUnitAmount (BigNumber.of_uint b) decimals)) in
  if number_lt tokenBalance amountToSellUnitAmount then
    perform (alert "Not Enough Balance") ;;
    Throw (Error "Not Enough Balance")
  else
  (* Step #2 *)
  a <- await (allowance_callAsync sellTokenWrapper fromAddress
                (erc20Proxy zeroExDeployedAddresses)) ;;
  let allowance :=
    BigNumber.toNumber
      (BigNumber.decimalPlaces 2
         (Web3Wrapper.toUnitAmount (BigNumber.of_uint a) decimals)) in
  (if number_lt allowance amountToSellUnitAmount then
     d' <- await (decimals_callAsync sellTokenWrapper) ;;
     amount <- lift (Web3Wrapper.toBaseUnitAmount amountToSellUnitAmount
                       (BigNumber.uint_toNumber d')) ;;
     tx <- await (approve_awaitTransactionSuccessAsync sellTokenWrapper
                    (erc20Proxy zeroExDeployedAddresses) amount fromAddress) ;;
     perform (console_log (LogReceipt tx))
   else Return tt) ;;
  (* Step #3 *)
  base <- convertValueFromHumanToEthereum sellTokenWrapper
            amountToSellUnitAmount ;;
  let sellAmountInBaseUnits := BigNumber.toString base in
  let url := "https://kovan.api.0x.org/swap/v0/quote" in
  let params :=
    {| buyToken := address buyTokenWrapper;
       sellToken := address sellTokenWrapper;
       sellAmount := sellAmountInBaseUnits;
       takerAddress := fromAddress |} in
  httpResponse <- await (axios_get url params) ;;
  let txData := response_data httpResponse in
  perform (console_log
    (LogString "Ethereum transaction generated by the 0x API: 👇")) ;;
  perform (console_log (LogQuote txData)) ;;
  perform (console_log (LogString "Orders used to perform the swap 👇")) ;;
  perform (console_log (LogOrders (Quote.orders (response_data httpResponse)))) ;;
  (* Step #4 *)
  let client := {| provider_of := provider |} in
  tx <- await (sendTransactionAsync client
                 {| TxData.from := fromAddress;
                    TxData.to := Quote.to txData;
                    TxData.data := Quote.data txData;
                    TxData.gas := Quote.gas txData;
                    TxData.gasPrice := Quote.gasPrice txData;
                    TxData.value := Quote.value txData |}) ;;
  receipt <- await (awaitTransactionSuccessAsync client tx) ;;
  perform (console_log
    (LogString ("Transaction " ++ transactionHash receipt
                ++ " was mined successfully"))).

End Exercise.

(** ** Reading traces *)

(** The awaited calls of a trace, in order. *)
Fixpoint calls (t : list Event) : list Call :=
  match t with
  | [] => []
  | Awaited c _ :: t' => c :: calls t'
  | Performed _ :: t' => calls t'
  end.

Inductive CallKind : Type :=
| KDecimals | KBalanceOf | KAllowance | KApprove | KHttpGet | KSend | KReceipt.

Definition kind (c : Call) : CallKind :=
  match c with
  | decimals_callAsync _ => KDecimals
  | balanceOf_callAsync _ _ => KBalanceOf
  | allowance_callAsync _ _ _ => KAllowance
  | approve_awaitTransactionSuccessAsync _ _ _ _ => KApprove
  | axios_get _ _ => KHttpGet
  | sendTransactionAsync _ _ => KSend
  | awaitTransactionSuccessAsync _ _ => KReceipt
  end.

Definition kind_eqb (a b : CallKind) : bool :=
  match a, b with
  | KDecimals, KDecimals | KBalanceOf, KBalanceOf | KAllowance, KAllowance
  | KApprove, KApprove | KHttpGet, KHttpGet | KSend, KSend
  | KReceipt, KReceipt => true
  | _, _ => false
  end.

(** How many calls of kind [k] a trace holds. *)
Definition count (k : CallKind) (t : list Event) : nat :=
  length (filter (fun c => kind_eqb (kind c) k) (calls t)).

(** [y] comes right after [x] in [l]. *)
Inductive follows {A : Type} (x y : A) : list A -> Prop :=
| follows_here l : follows x y (x :: y :: l)
| follows_later z l : follows x y l -> follows x y (z :: l).

(** [x] comes somewhere before [y] in [l]. *)
Inductive precedes {A : Type} (x y : A) : list A -> Prop :=
| precedes_here l : In y l -> precedes x y (x :: l)
| precedes_later z l : precedes x y l -> precedes x y (z :: l).

(** ** Amounts *)

(** The amount [x] of base units, in whole tokens, is below [amount]. *)
Definition below (x : uint) (decimals : N) (amount : number) : Prop :=
  (BigNumber.of_uint x / BigNumber.pow10 decimals < amount)%Q.

(** The unit amount of [x] base units, rounded to 2 decimal places. *)
Definition rounded_decimal (x : uint) (decimals : N) : BigNumber.t :=
  BigNumber.decimalPlaces 2
    (Web3Wrapper.toUnitAmount (BigNumber.of_uint x) decimals).

(** The number the two guards compare with the sell amount:
    [rounded_decimal] converted to a double. *)
Definition rounded_unit_amount (x : uint) (decimals : N) : number :=
  BigNumber.toNumber (rounded_decimal x decimals).

(** ** Order of steps *)

(** The four steps of the walkthrough: reads, approval, quote request,
    submission (with the wait for its receipt). *)
Definition step (c : Call) : nat :=
  match kind c with
  | KDecimals | KBalanceOf | KAllowance => 1
  | KApprove => 2
  | KHttpGet => 3
  | KSend | KReceipt => 4
  end.

(** No call of a later step precedes a call of an earlier step. *)
Definition steps_in_order (l : list Call) : Prop :=
  forall x y, precedes x y l -> (step x <= step y)%nat.

Fixpoint nondecreasing (l : list nat) : bool :=
  match l with
  | [] => true
  | x :: l' => forallb (Nat.leb x) l' && nondecreasing l'
  end.

Definition is_decimals_read (c : Call) : bool := kind_eqb (kind c) KDecimals.

(** The calls of a trace apart from the reads of [decimals]. *)
Definition main_calls (t : list Event) : list Call :=
  filter (fun c => negb (is_decimals_read c)) (calls t).

(** [l1] is an initial segment of [l2]. *)
Definition initial_segment {A : Type} (l1 l2 : list A) : Prop :=
  exists l3, l2 = (l1 ++ l3)%list.

(** The calls of a complete run, by kind. *)
Definition full_sequence (approval : bool) : list CallKind :=
  ([KDecimals; KBalanceOf; KAllowance]
   ++ (if approval then [KDecimals; KApprove] else [])
   ++ [KDecimals; KHttpGet; KSend; KReceipt])%list.

(** The event of a rejected call, and what it was rejected with. *)
Definition rejected_with (ev : Event) : option exception :=
  match ev with
  | Awaited _ (inl e) => Some e
  | _ => None
  end.

(** ** Sample inputs *)

Module Sample.

Definition addresses (c : ChainId) : ContractAddresses :=
  {| erc20Proxy := "0xf1ec01d6236d3cd881a0bf0130ea25fe4234003e" |}.

Definition rpc : SupportedProvider := {| endpoint := "https://kovan.infura.io" |}.

Definition dai : ERC20TokenContract :=
  {| address := "0x48178164eB4769BB919414Adc980b659a634703E";
     web3Provider := rpc |}.

Definition weth : ERC20TokenContract :=
  {| address := "0xd0a1e359811322d97991e03f863a0c30c2cf029c";
     web3Provider := rpc |}.

Definition me : string := "0xMyAddress".

Definition quote : GetSwapQuoteResponse :=
  {| Quote.to := "0x4eacd0af335451709e1e7b570b8ea68edec8bc97";
     Quote.data := "0xd9627aa4";
     Quote.gas := "180000";
     Quote.gasPrice := "1000000000";
     Quote.value := "0";
     Quote.orders := ["order#1"] |}.

(** A world whose token has [decimals] decimals, where the owner holds
    [balance] base units and has granted [allowance] base units, and
    where every call succeeds but those of kind [failing]. *)
Definition world (decimals balance allowance : uint)
  (failing : option CallKind) : World :=
  fun _ c =>
    if match failing with
       | Some k => kind_eqb (kind c) k
       | None => false
       end
    then inl (Error "rejected")
    else
      match c as c0 return exception + Resp c0 with
      | decimals_callAsync _ => inr decimals
      | balanceOf_callAsync _ _ => inr balance
      | allowance_callAsync _ _ _ => inr allowance
      | approve_awaitTransactionSuccessAsync _ _ _ _ =>
          inr {| transactionHash := "0xa1" |}
      | axios_get _ _ => inr {| response_data := quote |}
      | sendTransactionAsync _ _ => inr "0xb2"
      | awaitTransactionSuccessAsync _ h => inr {| transactionHash := h |}
      end.

(** [performSwapAsync(weth, dai, amount, me, rpc)]. *)
Definition swap (amount : number) : Async unit :=
  performSwapAsync addresses weth dai amount me rpc.

End Sample.

(** A program with a handler, which the source does not have: a decimals
    read whose failure is caught and dropped. *)
Definition guarded_decimals_read (token : ERC20TokenContract) : Async unit :=
  TryCatch (bind (await (decimals_callAsync token)) (fun _ => Return tt))
    (fun _ => Return tt)
    (Return tt).

(** ** More ways to read a trace *)

(** What [console.log] printed, in order. *)
Fixpoint logs (t : list Event) : list LogValue :=
  match t with
  | [] => []
  | Performed (console_log v) :: t' => v :: logs t'
  | _ :: t' => logs t'
  end.

(** The token contract a call goes to, for the calls that go to one. *)
Definition token_of (c : Call) : option ERC20TokenContract :=
  match c with
  | decimals_callAsync token => Some token
  | balanceOf_callAsync token _ => Some token
  | allowance_callAsync token _ _ => Some token
  | approve_awaitTransactionSuccessAsync token _ _ _ => Some token
  | _ => None
  end.

(** The account a call reads from or acts for. *)
Definition account_of (c : Call) : option string :=
  match c with
  | balanceOf_callAsync _ owner => Some owner
  | allowance_callAsync _ owner _ => Some owner
  | approve_awaitTransactionSuccessAsync _ _ _ txFrom => Some txFrom
  | sendTransactionAsync _ txData => Some (TxData.from txData)
  | _ => None
  end.

(** The answers of the successful decimals reads of a trace, in order. *)
Fixpoint decimals_answers (t : list Event) : list uint :=
  match t with
  | [] => []
  | Awaited c r :: t' =>
      match c as c0 return exception + Resp c0 -> list uint with
      | decimals_callAsync _ =>
          fun r0 =>
            match r0 with
            | inr d => d :: decimals_answers t'
            | inl _ => decimals_answers t'
            end
      | _ => fun _ => decimals_answers t'
      end r
  | Performed _ :: t' => decimals_answers t'
  end.

(** The integer a decimal string denotes. *)
Definition parse_integer (s : string) : option Z :=
  option_map Z.of_int (NilZero.int_of_string s).

(** [amount] times ten to the [decimals] is a whole number of base units. *)
Definition whole_base_units (amount : number) (decimals : N) : Prop :=
  exists z : Z, (amount * BigNumber.pow10 decimals == inject_Z z)%Q.

(** ** The introduction to the token wrapper *)

(** [introToERC20TokenContract] calls [name] and [transfer], which
    [performSwapAsync] does not, and logs what it read; it has its own calls
    and events, and no [throw]. *)
Module Intro.

Inductive Call : Type :=
| name_callAsync (token : ERC20TokenContract)
| decimals_callAsync (token : ERC20TokenContract)
| balanceOf_callAsync (token : ERC20TokenContract) (owner : string)
| transfer_awaitTransactionSuccessAsync
    (token : ERC20TokenContract) (recipient : string) (amount : BigNumber.t)
    (txFrom : string).

Definition Resp (c : Call) : Type :=
  match c with
  | name_callAsync _ => string
  | decimals_callAsync _ => uint
  | balanceOf_callAsync _ _ => uint
  | transfer_awaitTransactionSuccessAsync _ _ _ _ => TransactionReceipt
  end.

Inductive LogValue : Type :=
| LogName (s : string)
| LogUint (n : uint).

Inductive Async (A : Type) : Type :=
| Return (a : A)
| Await (c : Call) (k : Resp c -> Async A)
| Log (v : LogValue) (k : Async A).

Arguments Return {A} a.
Arguments Await {A} c k.
Arguments Log {A} v k.

Definition World : Type := nat -> forall c : Call, exception + Resp c.

Inductive Event : Type :=
| Awaited (c : Call) (r : exception + Resp c)
| Logged (v : LogValue).

Fixpoint run {A : Type} (w : World) (n : nat) (p : Async A)
  : list Event * Outcome A :=
  match p with
  | Return a => ([], Fulfilled a)
  | Await c k =>
      match w n c with
      | inl e => ([Awaited c (inl e)], Rejected e)
      | inr v => let (t, o) := run w (S n) (k v) in (Awaited c (inr v) :: t, o)
      end
  | Log v k => let (t, o) := run w n k in (Logged v :: t, o)
  end.

Definition trace {A : Type} (w : World) (p : Async A) : list Event :=
  fst (run w 0 p).

Definition outcome {A : Type} (w : World) (p : Async A) : Outcome A :=
  snd (run w 0 p).

Fixpoint calls (t : list Event) : list Call :=
  match t with
  | [] => []
  | Awaited c _ :: t' => c :: calls t'
  | Logged _ :: t' => calls t'
  end.

Fixpoint logs (t : list Event) : list LogValue :=
  match t with
  | [] => []
  | Logged v :: t' => v :: logs t'
  | Awaited _ _ :: t' => logs t'
  end.

Definition is_transfer (c : Call) : bool :=
  match c with
  | transfer_awaitTransactionSuccessAsync _ _ _ _ => true
  | _ => false
  end.

Definition introToERC20TokenContract (web3Provider : SupportedProvider)
  : Async unit :=
  let tokenAddress := "0x48178164eB4769BB919414Adc980b659a634703E" in
  let tokenContract := Build_ERC20TokenContract tokenAddress web3Provider in
  Await (name_callAsync tokenContract) (fun name =>
  Await (decimals_callAsync tokenContract) (fun decimals =>
  Await (balanceOf_callAsync tokenContract "0xSomeAddress") (fun balance =>
  Log (LogName name) (
  Log (LogUint decimals) (
  Log (LogUint balance) (
  Await (transfer_awaitTransactionSuccessAsync tokenContract
           "0xSomeOtherAddress"
           (BigNumber.of_number 100000000000000000000%Q)
           "0xMyAddress") (fun _ =>
  Return tt))))))).

(** A world that answers every call, but rejects the [failing]-th. *)
Definition sample_world (failing : option nat) : World :=
  fun n c =>
    if match failing with
       | Some k => Nat.eqb n k
       | None => false
       end
    then inl (Error "rejected")
    else
      match c as c0 return exception + Resp c0 with
      | name_callAsync _ => inr "DAI"
      | decimals_callAsync _ => inr 18%N
      | balanceOf_callAsync _ _ => inr 100000000000000000000%N
      | transfer_awaitTransactionSuccessAsync _ _ _ _ =>
          inr {| transactionHash := "0xc3" |}
      end.

End Intro.

(** ** Facts about doubles *)

Module DoubleFacts.
Import Double.

Lemma pow2_pos (e : Z) : 0 < pow2 e.
Proof. apply Qpower_0_lt. reflexivity. Qed.

Lemma pow2_add (a b : Z) : pow2 (a + b) == pow2 a * pow2 b.
Proof. apply Qpower_plus. discriminate. Qed.

Lemma pow2_le (a b : Z) : (a <= b)%Z -> pow2 a <= pow2 b.
Proof. intros H. apply Qpower_le_compat_l; [exact H | discriminate]. Qed.

Lemma pow2_lt (a b : Z) : (a < b)%Z -> pow2 a < pow2 b.
Proof. intros H. apply Qpower_lt_compat_l; [exact H | reflexivity]. Qed.

Lemma pow2_lt_inv (a b : Z) : pow2 a < pow2 b -> (a < b)%Z.
Proof. intros H. apply (Qpower_lt_compat_l_inv 2); [exact H | reflexivity]. Qed.

Lemma pow2_Z (e : Z) : (0 <= e)%Z -> pow2 e == inject_Z (2 ^ e).
Proof. intros H. unfold pow2. rewrite Zpower_Qpower by exact H. reflexivity. Qed.

Lemma pow2_cancel (e : Z) : pow2 (- e) * pow2 e == 1.
Proof. rewrite <- pow2_add. replace (- e + e)%Z with 0%Z by lia. reflexivity. Qed.

(** [x] lies between two powers of two around [2 ^ (log2 n - log2 d)]. *)
Lemma log2_bracket (x : Q) :
  0 < x ->
  let e := (Z.log2 (Qnum x) - Z.log2 (Zpos (Qden x)))%Z in
  pow2 (e - 1) <= x /\ x < pow2 (e + 1).
Proof.
  destruct x as [n d]. intros Hx e. cbn [Qnum Qden] in e.
  assert (Hn : (0 < n)%Z).
  { unfold Qlt in Hx. cbn in Hx. lia. }
  pose proof (Z.log2_spec n Hn) as [Hn1 Hn2].
  pose proof (Z.log2_spec (Z.pos d) (Pos2Z.is_pos d)) as [Hd1 Hd2].
  pose proof (Z.log2_nonneg n) as Ha. pose proof (Z.log2_nonneg (Z.pos d)) as Hb.
  set (a := Z.log2 n) in *. set (b := Z.log2 (Z.pos d)) in *.
  assert (X : n # d == inject_Z n / inject_Z (Z.pos d)).
  { unfold Qeq. cbn. lia. }
  assert (Dpos : 0 < inject_Z (Z.pos d)) by (unfold Qlt; cbn; lia).
  split.
  - rewrite X. apply Qle_shift_div_l; [exact Dpos |].
    apply Qle_trans with (pow2 (e - 1) * pow2 (b + 1)).
    + apply Qmult_le_l; [apply pow2_pos |].
      rewrite pow2_Z by lia. rewrite <- Zle_Qle. unfold Z.succ in Hd2. lia.
    + rewrite <- pow2_add. unfold e.
      replace (a - b - 1 + (b + 1))%Z with a by lia.
      rewrite pow2_Z by lia. rewrite <- Zle_Qle. exact Hn1.
  - rewrite X. apply Qlt_shift_div_r; [exact Dpos |].
    apply Qlt_le_trans with (pow2 (e + 1) * pow2 b).
    + rewrite <- pow2_add. unfold e.
      replace (a - b + 1 + b)%Z with (a + 1)%Z by lia.
      rewrite pow2_Z by lia. rewrite <- Zlt_Qlt. unfold Z.succ in Hn2. lia.
    + apply Qmult_le_l; [apply pow2_pos |].
      rewrite pow2_Z by lia. rewrite <- Zle_Qle. exact Hd1.
Qed.

Lemma ilog2_spec (x : Q) :
  0 < x -> pow2 (ilog2 x) <= x /\ x < pow2 (ilog2 x + 1).
Proof.
  intros Hx. pose proof (log2_bracket x Hx) as [Hlo Hhi]. cbv zeta in Hlo, Hhi.
  unfold ilog2. set (e := (Z.log2 (Qnum x) - Z.log2 (Z.pos (Qden x)))%Z) in *.
  destruct (Qle_bool (pow2 e) x) eqn:E.
  - apply Qle_bool_iff in E. split; assumption.
  - split; [exact Hlo |].
    replace (e - 1 + 1)%Z with e by lia.
    apply Qnot_le_lt. intros H. apply Qle_bool_iff in H. congruence.
Qed.

Lemma ilog2_unique (x : Q) (e : Z) :
  pow2 e <= x -> x < pow2 (e + 1) -> ilog2 x = e.
Proof.
  intros Hlo Hhi.
  assert (Hx : 0 < x) by (apply Qlt_le_trans with (pow2 e); [apply pow2_pos | exact Hlo]).
  destruct (ilog2_spec x Hx) as [Ilo Ihi].
  assert (ilog2 x < e + 1)%Z.
  { apply pow2_lt_inv. apply Qle_lt_trans with x; assumption. }
  assert (e < ilog2 x + 1)%Z.
  { apply pow2_lt_inv. apply Qle_lt_trans with x; assumption. }
  lia.
Qed.

Lemma ilog2_mono (x y : Q) : 0 < x -> x <= y -> (ilog2 x <= ilog2 y)%Z.
Proof.
  intros Hx Hxy.
  assert (Hy : 0 < y) by (apply Qlt_le_trans with x; assumption).
  destruct (ilog2_spec x Hx) as [Xlo _].
  destruct (ilog2_spec y Hy) as [_ Yhi].
  assert (ilog2 x < ilog2 y + 1)%Z; [| lia].
  apply pow2_lt_inv.
  apply Qle_lt_trans with x; [exact Xlo |].
  apply Qle_lt_trans with y; assumption.
Qed.

Lemma floor_bounds (t : Q) : inject_Z (Qfloor t) <= t /\ t < inject_Z (Qfloor t) + 1.
Proof.
  split; [apply Qfloor_le |].
  pose proof (Qlt_floor t) as H. rewrite inject_Z_plus in H. exact H.
Qed.

Ltac compare_spec C :=
  match type of C with
  | _ = Eq => apply Qeq_alt in C
  | _ = Lt => apply Qlt_alt in C
  | _ = Gt => apply Qgt_alt in C
  end.

Lemma rne_near (t : Q) :
  inject_Z (rne t) - t <= 1 # 2 /\ t - inject_Z (rne t) <= 1 # 2.
Proof.
  unfold rne. destruct (floor_bounds t) as [Hlo Hhi].
  set (f := Qfloor t) in *.
  destruct (Qcompare (t - inject_Z f) (1 # 2)) eqn:C.
  - apply Qeq_alt in C.
    destruct (Z.even f);
      [| rewrite inject_Z_plus; change (inject_Z 1) with 1]; split; lra.
  - apply Qlt_alt in C. split; lra.
  - apply Qgt_alt in C. rewrite inject_Z_plus. change (inject_Z 1) with 1.
    split; lra.
Qed.

Lemma rne_Z (z : Z) : rne (inject_Z z) = z.
Proof.
  unfold rne. rewrite Qfloor_Z.
  assert (C : Qcompare (inject_Z z - inject_Z z) (1 # 2) = Lt).
  { apply (proj1 (Qlt_alt _ _)). lra. }
  rewrite C. reflexivity.
Qed.

Lemma rne_mono (t u : Q) : t <= u -> (rne t <= rne u)%Z.
Proof.
  intros H.
  destruct (floor_bounds t) as [Tlo Thi]. destruct (floor_bounds u) as [Ulo Uhi].
  pose proof (Qfloor_resp_le t u H) as F.
  unfold rne. set (f := Qfloor t) in *. set (g := Qfloor u) in *.
  assert (Fg : (f < g)%Z -> inject_Z f + 1 <= inject_Z g).
  { intros L. change (inject_Z f + inject_Z 1 <= inject_Z g).
    rewrite <- inject_Z_plus, <- Zle_Qle. lia. }
  destruct (Z.eq_dec f g) as [E | E].
  - rewrite <- E in *. clear Fg.
    destruct (Qcompare (t - inject_Z f) (1 # 2)) eqn:C;
      destruct (Qcompare (u - inject_Z f) (1 # 2)) eqn:D;
      compare_spec C; compare_spec D;
      try (destruct (Z.even f)); try lia; exfalso; lra.
  - assert (L : (f < g)%Z) by lia. specialize (Fg L).
    assert (f + 1 <= g)%Z by lia.
    destruct (Qcompare (t - inject_Z f) (1 # 2));
      destruct (Qcompare (u - inject_Z g) (1 # 2));
      try (destruct (Z.even f)); try (destruct (Z.even g)); lia.
Qed.

Lemma rne_le_Z (t : Q) (z : Z) : t <= inject_Z z -> (rne t <= z)%Z.
Proof. intros H. rewrite <- (rne_Z z). apply rne_mono, H. Qed.

Lemma rne_ge_Z (t : Q) (z : Z) : inject_Z z <= t -> (z <= rne t)%Z.
Proof. intros H. rewrite <- (rne_Z z). apply rne_mono, H. Qed.

Lemma expo_mono (x y : Q) : 0 < x -> x <= y -> (expo x <= expo y)%Z.
Proof.
  intros Hx H. pose proof (ilog2_mono x y Hx H). unfold expo. lia.
Qed.

(** The scaled value [x / 2 ^ expo x] and its bounds. *)
Lemma scaled_back (x : Q) (e : Z) : x * pow2 (- e) * pow2 e == x.
Proof. rewrite <- Qmult_assoc, pow2_cancel. ring. Qed.

Lemma scaled_lt (x : Q) :
  0 < x -> x * pow2 (- expo x) < inject_Z (2 ^ 53).
Proof.
  intros Hx. destruct (ilog2_spec x Hx) as [_ Hhi].
  assert (B : x < pow2 (expo x + 53)).
  { apply Qlt_le_trans with (pow2 (ilog2 x + 1)); [exact Hhi |].
    apply pow2_le. unfold expo. lia. }
  rewrite <- pow2_Z by lia.
  apply Qmult_lt_r with (pow2 (expo x)); [apply pow2_pos |].
  rewrite scaled_back, <- pow2_add.
  replace (53 + expo x)%Z with (expo x + 53)%Z by lia. exact B.
Qed.

Lemma scaled_ge (x : Q) :
  0 < x -> (emin < expo x)%Z -> inject_Z (2 ^ 52) <= x * pow2 (- expo x).
Proof.
  intros Hx He. destruct (ilog2_spec x Hx) as [Hlo _].
  assert (E : (ilog2 x = expo x + 52)%Z) by (unfold expo in *; lia).
  rewrite <- pow2_Z by lia.
  apply Qmult_le_r with (pow2 (expo x)); [apply pow2_pos |].
  rewrite scaled_back, <- pow2_add.
  replace (52 + expo x)%Z with (ilog2 x) by lia. exact Hlo.
Qed.

Lemma scaled_pos (x : Q) (e : Z) : 0 < x -> 0 < x * pow2 (- e).
Proof. intros Hx. apply Qmult_lt_0_compat; [exact Hx | apply pow2_pos]. Qed.

Lemma round_pos_nonneg (x : Q) : 0 < x -> 0 <= round_pos x.
Proof.
  intros Hx. unfold round_pos.
  apply Qmult_le_0_compat; [| apply Qlt_le_weak, pow2_pos].
  change 0 with (inject_Z 0). rewrite <- Zle_Qle.
  apply rne_ge_Z. apply Qlt_le_weak, scaled_pos, Hx.
Qed.

Lemma round_pos_le (x : Q) : 0 < x -> round_pos x <= pow2 (expo x + 53).
Proof.
  intros Hx. unfold round_pos. rewrite Z.add_comm, pow2_add.
  apply Qmult_le_compat_r; [| apply Qlt_le_weak, pow2_pos].
  rewrite (pow2_Z 53) by lia. rewrite <- Zle_Qle.
  apply rne_le_Z, Qlt_le_weak, scaled_lt, Hx.
Qed.

Lemma round_pos_ge (x : Q) :
  0 < x -> (emin < expo x)%Z -> pow2 (expo x + 52) <= round_pos x.
Proof.
  intros Hx He. unfold round_pos. rewrite Z.add_comm, pow2_add.
  apply Qmult_le_compat_r; [| apply Qlt_le_weak, pow2_pos].
  rewrite (pow2_Z 52) by lia. rewrite <- Zle_Qle.
  apply rne_ge_Z, scaled_ge; assumption.
Qed.

Lemma round_pos_mono (x y : Q) : 0 < x -> x <= y -> round_pos x <= round_pos y.
Proof.
  intros Hx H.
  assert (Hy : 0 < y) by (apply Qlt_le_trans with x; assumption).
  pose proof (expo_mono x y Hx H) as E.
  destruct (Z.eq_dec (expo x) (expo y)) as [Eq | Ne].
  - unfold round_pos. rewrite Eq.
    apply Qmult_le_compat_r; [| apply Qlt_le_weak, pow2_pos].
    rewrite <- Zle_Qle. apply rne_mono.
    apply Qmult_le_compat_r; [exact H | apply Qlt_le_weak, pow2_pos].
  - assert (L : (expo x < expo y)%Z) by lia.
    assert (M : (emin < expo y)%Z) by (unfold expo in *; lia).
    apply Qle_trans with (pow2 (expo x + 53)); [apply round_pos_le, Hx |].
    apply Qle_trans with (pow2 (expo y + 52)); [apply pow2_le; lia |].
    apply round_pos_ge; assumption.
Qed.

Lemma round_pos_near (x : Q) :
  0 < x -> Qabs (round_pos x - x) <= pow2 (expo x - 1).
Proof.
  intros Hx. unfold round_pos. set (e := expo x). set (t := x * pow2 (- e)).
  assert (X : x == t * pow2 e) by (unfold t; rewrite scaled_back; reflexivity).
  assert (P : pow2 (e - 1) == (1 # 2) * pow2 e).
  { replace (e - 1)%Z with (-1 + e)%Z by lia. rewrite pow2_add. reflexivity. }
  destruct (rne_near t) as [N1 N2].
  pose proof (pow2_pos e) as Pe.
  assert (U : (inject_Z (rne t) - t) * pow2 e <= (1 # 2) * pow2 e).
  { apply Qmult_le_compat_r; [exact N1 | apply Qlt_le_weak, Pe]. }
  assert (V : (t - inject_Z (rne t)) * pow2 e <= (1 # 2) * pow2 e).
  { apply Qmult_le_compat_r; [exact N2 | apply Qlt_le_weak, Pe]. }
  apply Qabs_Qle_condition. rewrite P, X.
  generalize dependent (inject_Z (rne t)). intros r _ _ U V.
  generalize dependent (pow2 e). intros p _ _ U V.
  split; lra.
Qed.

Lemma Qnum_pos (x : Q) : 0 < x -> exists p, Qnum x = Z.pos p.
Proof.
  destruct x as [[| p | p] d]; unfold Qlt; cbn; intros H; try lia. eauto.
Qed.

Lemma Qnum_neg (x : Q) : x < 0 -> exists p, Qnum x = Z.neg p.
Proof.
  destruct x as [[| p | p] d]; unfold Qlt; cbn; intros H; try lia. eauto.
Qed.

Lemma Qnum_zero (x : Q) : x == 0 -> Qnum x = 0%Z.
Proof. destruct x as [n d]. unfold Qeq. cbn. lia. Qed.

Lemma round_of_pos (x : Q) : 0 < x -> round x = round_pos x.
Proof. intros H. destruct (Qnum_pos x H) as [p E]. unfold round. rewrite E. reflexivity. Qed.

Lemma round_of_neg (x : Q) : x < 0 -> round x = - round_pos (- x).
Proof. intros H. destruct (Qnum_neg x H) as [p E]. unfold round. rewrite E. reflexivity. Qed.

Lemma round_of_zero (x : Q) : x == 0 -> round x = 0.
Proof. intros H. unfold round. rewrite (Qnum_zero x H). reflexivity. Qed.

Lemma sign_cases (x : Q) : x < 0 \/ x == 0 \/ 0 < x.
Proof.
  destruct (Q_dec x 0) as [[H | H] | H]; auto.
Qed.

Lemma round_nonneg (x : Q) : 0 <= x -> 0 <= round x.
Proof.
  intros H. destruct (sign_cases x) as [N | [Z | P]].
  - exfalso. lra.
  - rewrite (round_of_zero x Z). apply Qle_refl.
  - rewrite (round_of_pos x P). apply round_pos_nonneg, P.
Qed.

Lemma round_nonpos (x : Q) : x <= 0 -> round x <= 0.
Proof.
  intros H. destruct (sign_cases x) as [N | [Z | P]].
  - rewrite (round_of_neg x N).
    assert (0 <= round_pos (- x)) by (apply round_pos_nonneg; lra). lra.
  - rewrite (round_of_zero x Z). apply Qle_refl.
  - exfalso. lra.
Qed.

(** Rounding to the nearest double is monotone. *)
Lemma round_mono (x y : Q) : x <= y -> round x <= round y.
Proof.
  intros H.
  destruct (sign_cases x) as [Nx | [Zx | Px]];
    destruct (sign_cases y) as [Ny | [Zy | Py]]; try (exfalso; lra).
  - rewrite (round_of_neg x Nx), (round_of_neg y Ny).
    apply Qopp_le_compat, round_pos_mono; lra.
  - apply Qle_trans with 0; [apply round_nonpos | apply round_nonneg]; lra.
  - apply Qle_trans with 0; [apply round_nonpos | apply round_nonneg]; lra.
  - apply Qle_trans with 0; [apply round_nonpos | apply round_nonneg]; lra.
  - apply Qle_trans with 0; [apply round_nonpos | apply round_nonneg]; lra.
  - rewrite (round_of_pos x Px), (round_of_pos y Py).
    apply round_pos_mono; assumption.
Qed.

(** Equal rationals round to equal doubles. *)
#[global] Instance round_comp : Proper (Qeq ==> Qeq) round.
Proof.
  intros x y E. apply Qle_antisym; apply round_mono; rewrite E; apply Qle_refl.
Qed.

(** Below [2 ^ E] the rounding moves a value by at most [2 ^ (E - 54)]. *)
Lemma round_near (x : Q) (E : Z) :
  0 <= x -> x < pow2 E -> (emin + 53 <= E)%Z ->
  Qabs (round x - x) <= pow2 (E - 54).
Proof.
  intros H0 HE Hm. destruct (sign_cases x) as [N | [Z | P]].
  - exfalso. lra.
  - rewrite (round_of_zero x Z), Z. apply Qlt_le_weak, pow2_pos.
  - rewrite (round_of_pos x P).
    apply Qle_trans with (pow2 (expo x - 1)); [apply round_pos_near, P |].
    apply pow2_le.
    destruct (ilog2_spec x P) as [Lo _].
    assert (ilog2 x < E)%Z.
    { apply pow2_lt_inv. apply Qle_lt_trans with x; assumption. }
    unfold expo. lia.
Qed.

#[global] Instance rne_comp : Proper (Qeq ==> eq) rne.
Proof.
  intros t u E. unfold rne. cbv zeta.
  rewrite (Qfloor_comp t u E).
  assert (C : Qcompare (t - inject_Z (Qfloor u)) (1 # 2)
              = Qcompare (u - inject_Z (Qfloor u)) (1 # 2)).
  { apply Qcompare_comp; [rewrite E |]; reflexivity. }
  rewrite C. reflexivity.
Qed.

Lemma expo_ge_emin (x : Q) : (emin <= expo x)%Z.
Proof. unfold expo. lia. Qed.

(** A double is its own nearest double. *)
Lemma round_pos_idem (x : Q) : 0 < x -> round (round_pos x) == round_pos x.
Proof.
  intros Hx.
  set (e := expo x). set (m := rne (x * pow2 (- e))).
  assert (Y : round_pos x == inject_Z m * pow2 e) by reflexivity.
  pose proof (expo_ge_emin x) as Ee. fold e in Ee.
  pose proof (pow2_pos e) as Pe.
  assert (M53 : (m <= 2 ^ 53)%Z).
  { apply rne_le_Z, Qlt_le_weak, scaled_lt, Hx. }
  assert (M0 : (0 <= m)%Z).
  { apply rne_ge_Z, Qlt_le_weak, scaled_pos, Hx. }
  destruct (Z.eq_dec m 0) as [Z0 | NZ].
  - assert (R0 : round_pos x == 0) by (rewrite Y, Z0; ring).
    rewrite R0. reflexivity.
  - assert (Mp : (0 < m)%Z) by lia.
    assert (Rp : 0 < round_pos x).
    { rewrite Y. apply Qmult_lt_0_compat; [| exact Pe].
      change 0 with (inject_Z 0). rewrite <- Zlt_Qlt. exact Mp. }
    rewrite (round_of_pos _ Rp).
    destruct (Z.eq_dec m (2 ^ 53)) as [Top | NTop].
    + (* the mantissa overflowed into the next binade *)
      assert (Yv : round_pos x == pow2 (e + 53)).
      { rewrite Y, Top, Z.add_comm, pow2_add, (pow2_Z 53) by lia. reflexivity. }
      assert (L : ilog2 (round_pos x) = (e + 53)%Z).
      { apply ilog2_unique; rewrite Yv; [apply Qle_refl | apply pow2_lt; lia]. }
      assert (E' : expo (round_pos x) = (e + 1)%Z) by (unfold expo; lia).
      unfold round_pos at 1. rewrite E'.
      assert (T : round_pos x * pow2 (- (e + 1)) == inject_Z (2 ^ 52)).
      { rewrite Yv, <- pow2_add, <- pow2_Z by lia.
        replace (e + 53 + - (e + 1))%Z with 52%Z by lia. reflexivity. }
      rewrite T, rne_Z, Yv.
      rewrite <- pow2_Z by lia. rewrite <- pow2_add.
      replace (52 + (e + 1))%Z with (e + 53)%Z by lia. reflexivity.
    + assert (Mlt : (m < 2 ^ 53)%Z) by lia.
      assert (Hi : round_pos x < pow2 (e + 53)).
      { rewrite Y, Z.add_comm, pow2_add, (pow2_Z 53) by lia.
        apply Qmult_lt_compat_r; [exact Pe |]. rewrite <- Zlt_Qlt. exact Mlt. }
      assert (E' : expo (round_pos x) = e).
      { destruct (Z.eq_dec e emin) as [Em | Em].
        - destruct (ilog2_spec _ Rp) as [Lo _].
          assert (ilog2 (round_pos x) < e + 53)%Z.
          { apply pow2_lt_inv. apply Qle_lt_trans with (round_pos x); assumption. }
          unfold expo. lia.
        - assert (G : (emin < expo x)%Z) by (fold e; lia).
          pose proof (round_pos_ge x Hx G) as Lo. fold e in Lo.
          assert (L : ilog2 (round_pos x) = (e + 52)%Z).
          { apply ilog2_unique; [exact Lo |].
            replace (e + 52 + 1)%Z with (e + 53)%Z by lia. exact Hi. }
          unfold expo. lia. }
      unfold round_pos at 1. rewrite E'.
      assert (T : round_pos x * pow2 (- e) == inject_Z m).
      { rewrite Y, <- Qmult_assoc, (Qmult_comm (pow2 e)), pow2_cancel. ring. }
      rewrite T, rne_Z. symmetry. exact Y.
Qed.

Lemma round_idem (x : Q) : round (round x) == round x.
Proof.
  destruct (sign_cases x) as [N | [Z | P]].
  - rewrite (round_of_neg x N).
    assert (P : 0 < - x) by lra.
    pose proof (round_pos_idem (- x) P) as I.
    pose proof (round_pos_nonneg (- x) P) as G.
    destruct (sign_cases (round_pos (- x))) as [N' | [Z' | P']].
    + exfalso. lra.
    + assert (Z2 : - round_pos (- x) == 0) by (rewrite Z'; reflexivity).
      rewrite (round_of_zero _ Z2). symmetry. exact Z2.
    + assert (N2 : - round_pos (- x) < 0) by lra.
      rewrite (round_of_neg _ N2).
      assert (O : - - round_pos (- x) == round_pos (- x)) by ring.
      rewrite <- (round_of_pos (- - round_pos (- x))) by lra.
      rewrite O, I. reflexivity.
  - rewrite (round_of_zero x Z). reflexivity.
  - rewrite (round_of_pos x P). apply round_pos_idem, P.
Qed.

End DoubleFacts.

(** ** Facts about the library model *)

(** [number_lt] decides the order of the doubles. *)
Lemma number_lt_spec (a b : number) :
  number_lt a b = true <-> (Double.round a < Double.round b)%Q.
Proof.
  unfold number_lt. rewrite negb_true_iff.
  destruct (Qle_bool (Double.round b) (Double.round a)) eqn:E.
  - apply Qle_bool_iff in E. split; [discriminate|].
    intro H. exfalso. apply (Qlt_not_le _ _ H E).
  - split; [intros _ | reflexivity].
    apply Qnot_le_lt. intro H. apply Qle_bool_iff in H. congruence.
Qed.

(** What [toNumber] returns is a double already. *)
Lemma toNumber_lt_spec (x : BigNumber.t) (b : number) :
  number_lt (BigNumber.toNumber x) b = true
  <-> (BigNumber.toNumber x < Double.round b)%Q.
Proof.
  rewrite number_lt_spec. unfold BigNumber.toNumber.
  rewrite DoubleFacts.round_idem. reflexivity.
Qed.

(** A BigNumber without a fractional part is the integer [to_Z] reads. *)
Lemma to_Z_exact (x : BigNumber.t) :
  BigNumber.hasDecimals x = false -> (inject_Z (BigNumber.to_Z x) == x)%Q.
Proof.
  unfold BigNumber.hasDecimals, BigNumber.to_Z. intros E.
  apply negb_false_iff, Z.eqb_eq in E.
  apply Z.rem_divide in E; [|discriminate].
  destruct E as [k Hk]. destruct x as [n d]. cbn in *.
  unfold Qeq. cbn. rewrite Hk, Z.div_mul by discriminate. ring.
Qed.

(** A base-unit amount that [toBaseUnitAmount] returns is the exact product
    of the amount and [10 ^ decimals]. *)
Lemma toBaseUnitAmount_exact (amount : number) (decimals : N) (base : BigNumber.t) :
  Web3Wrapper.toBaseUnitAmount amount decimals = inr base ->
  (base == amount * BigNumber.pow10 decimals)%Q.
Proof.
  unfold Web3Wrapper.toBaseUnitAmount.
  destruct (BigNumber.hasDecimals _) eqn:E; [discriminate|].
  intros H. injection H as <-.
  rewrite (to_Z_exact _ E).
  unfold BigNumber.times, BigNumber.of_number.
  apply Qmult_comm.
Qed.

Lemma pow10_pos (dp : nat) : (0 < 10 ^ Z.of_nat dp)%Z.
Proof. apply Z.pow_pos_nonneg; lia. Qed.

(** Rounding moves a value by at most half a unit of the last place kept. *)
Lemma round_half_up_nearest (dp : nat) (x : BigNumber.t) :
  (Qabs (BigNumber.round_half_up dp x - x) <= 1 # (2 * Z.to_pos (10 ^ Z.of_nat dp)))%Q.
Proof.
  pose proof (pow10_pos dp) as Hs.
  apply Qabs_Qle_condition.
  destruct x as [n d]. unfold BigNumber.round_half_up. cbn [Qnum Qden].
  set (s := (10 ^ Z.of_nat dp)%Z) in *.
  set (m := ((2 * Z.abs n * s + Z.pos d) / (2 * Z.pos d))%Z).
  assert (Hm : (2 * Z.pos d * m <= 2 * Z.abs n * s + Z.pos d < 2 * Z.pos d * m + 2 * Z.pos d)%Z).
  { unfold m.
    pose proof (Z.mul_div_le (2 * Z.abs n * s + Z.pos d) (2 * Z.pos d) ltac:(lia)).
    pose proof (Z.mul_succ_div_gt (2 * Z.abs n * s + Z.pos d) (2 * Z.pos d) ltac:(lia)).
    lia. }
  clearbody m.
  unfold Qle, Qminus, Qplus, Qopp. cbn [Qnum Qden].
  rewrite !Pos2Z.inj_mul, Z2Pos.id by exact Hs.
  destruct (Z.abs_spec n) as [[Hn Ha] | [Hn Ha]]; rewrite Ha in Hm.
  - destruct (Z.eq_dec n 0) as [-> | Hz].
    + change (Z.sgn 0) with 0%Z. nia.
    + rewrite (Z.sgn_pos n) by lia. nia.
  - rewrite (Z.sgn_neg n) by lia. nia.
Qed.

(** For a token of at most 78 decimals the unit amount is the exact
    quotient. *)
Lemma toUnitAmount_exact (x : uint) (decimals : N) :
  (decimals <= 78)%N ->
  (Web3Wrapper.toUnitAmount (BigNumber.of_uint x) decimals
   == BigNumber.of_uint x / BigNumber.pow10 decimals)%Q.
Proof.
  intros Hd.
  unfold Web3Wrapper.toUnitAmount, BigNumber.div, BigNumber.DECIMAL_PLACES.
  set (q := (BigNumber.of_uint x / BigNumber.pow10 decimals)%Q).
  assert (Hp : (0 < 10 ^ Z.of_N decimals)%Z) by (apply Z.pow_pos_nonneg; lia).
  assert (Hq : q = Qmake (Z.of_N x) (Z.to_pos (10 ^ Z.of_N decimals))).
  { unfold q, BigNumber.of_uint, BigNumber.pow10, Qdiv, Qinv, Qmult, inject_Z.
    cbn [Qnum Qden].
    destruct (10 ^ Z.of_N decimals)%Z eqn:E; try lia.
    cbn. f_equal. lia. }
  rewrite Hq. unfold BigNumber.round_half_up. cbn [Qnum Qden].
  rewrite Z2Pos.id by exact Hp.
  set (D := (10 ^ Z.of_N decimals)%Z) in *.
  assert (Hs : (10 ^ Z.of_nat 78 = D * 10 ^ (78 - Z.of_N decimals))%Z).
  { unfold D. rewrite <- Z.pow_add_r by lia. f_equal. lia. }
  set (s := (10 ^ Z.of_nat 78)%Z) in *.
  set (r := (10 ^ (78 - Z.of_N decimals))%Z) in *.
  assert (Hr : (0 < r)%Z) by (apply Z.pow_pos_nonneg; lia).
  assert (Hx : (0 <= Z.of_N x)%Z) by lia.
  rewrite Z.abs_eq by exact Hx.
  assert (Hm : ((2 * Z.of_N x * s + D) / (2 * D) = Z.of_N x * r)%Z).
  { symmetry. apply (Z.div_unique _ _ _ D); [lia | rewrite Hs; ring]. }
  rewrite Hm. unfold Qeq. cbn [Qnum Qden].
  rewrite !Z2Pos.id by lia.
  destruct (Z.eq_dec (Z.of_N x) 0) as [-> | Hz].
  - reflexivity.
  - rewrite Z.sgn_pos by lia. rewrite Hs. ring.
Qed.

(** Ties go away from zero. *)
Example round_half_up_tie : BigNumber.round_half_up 2 (4995 # 1000) = 500 # 100.
Proof. reflexivity. Qed.

Example round_half_up_negative_tie :
  BigNumber.round_half_up 2 (-4995 # 1000) = -500 # 100.
Proof. reflexivity. Qed.

Example round_half_up_below_tie :
  BigNumber.round_half_up 2 (4994 # 1000) = 499 # 100.
Proof. reflexivity. Qed.

(** [toBaseUnitAmount] throws nothing but its own error. *)
Lemma toBaseUnitAmount_error (amount : number) (decimals : N) (e : exception) :
  Web3Wrapper.toBaseUnitAmount amount decimals = inl e ->
  e = InvalidUnitAmount amount.
Proof.
  unfold Web3Wrapper.toBaseUnitAmount.
  destruct (BigNumber.hasDecimals _); congruence.
Qed.

(** A list of steps that [nondecreasing] accepts is in order. *)
Lemma nondecreasing_steps_in_order (l : list Call) :
  nondecreasing (map step l) = true -> steps_in_order l.
Proof.
  intros H x y P. induction P as [l Hy | z l P IH]; cbn in H;
    apply andb_true_iff in H; destruct H as [Hx Hl].
  - rewrite forallb_forall in Hx.
    apply Nat.leb_le, Hx, in_map, Hy.
  - apply IH, Hl.
Qed.

(** ** Facts about programs without handlers *)

Lemma handler_free_bind {A B : Type} (p : Async A) (f : A -> Async B) :
  handler_free p -> (forall a, handler_free (f a)) -> handler_free (bind p f).
Proof.
  intros H F. induction H as [a | e | c k _ IH | e k _ IH]; cbn.
  - apply F.
  - apply hf_Throw.
  - apply hf_Await. exact IH.
  - apply hf_Effect. exact IH.
Qed.

(** In a program without handlers a rejected call ends the run, which is
    rejected with the same value. *)
Lemma handler_free_propagates {A : Type} (p : Async A) :
  handler_free p ->
  forall (w : World) (n : nat) (ev : Event) (e : exception),
    In ev (fst (run w n p)) ->
    rejected_with ev = Some e ->
    snd (run w n p) = Rejected e
    /\ exists pre, fst (run w n p) = (pre ++ [ev])%list.
Proof.
  intros H. induction H as [a | e0 | c k _ IH | e0 k _ IH];
    intros w n ev e I R; cbn in *.
  - contradiction.
  - contradiction.
  - destruct (w n c) as [e1 | v]; cbn in *.
    + destruct I as [<- | []]. cbn in R. injection R as <-.
      split; [reflexivity | exists []; reflexivity].
    + specialize (IH v w (S n) ev e).
      destruct (run w (S n) (k v)) as [t o]. cbn in *.
      destruct I as [<- | I]; [discriminate R |].
      destruct (IH I R) as [O [pre P]].
      split; [exact O |]. exists (Awaited c (inr v) :: pre). rewrite P.
      reflexivity.
  - specialize (IH w n ev e).
    destruct (run w n k) as [t o]. cbn in *.
    destruct I as [<- | I]; [discriminate R |].
    destruct (IH I R) as [O [pre P]].
    split; [exact O |]. exists (Performed e0 :: pre). rewrite P. reflexivity.
Qed.

(** ** Exploring the runs of [performSwapAsync] *)

Arguments Web3Wrapper.toUnitAmount : simpl never.
Arguments Web3Wrapper.toBaseUnitAmount : simpl never.
Arguments BigNumber.decimalPlaces : simpl never.
Arguments BigNumber.toString : simpl never.
Arguments BigNumber.of_uint : simpl never.
Arguments BigNumber.toNumber : simpl never.
Arguments number_lt : simpl never.
Arguments Double.round : simpl never.
Arguments String.append : simpl never.

Ltac unfold_swap :=
  unfold trace, outcome, performSwapAsync, convertValueFromHumanToEthereum,
    await, perform, lift, BigNumber.uint_toNumber in *; cbn in *.

Ltac run_step :=
  match goal with
  | |- context [match ?w ?n ?c with inl _ => _ | inr _ => _ end] =>
      destruct (w n c) eqn:?
  | |- context [if number_lt ?a ?b then _ else _] =>
      destruct (number_lt a b) eqn:?
  | |- context [match Web3Wrapper.toBaseUnitAmount ?a ?d with
                | inl _ => _ | inr _ => _ end] =>
      destruct (Web3Wrapper.toBaseUnitAmount a d) eqn:?
  end; cbn in *.

Ltac explore := unfold_swap; repeat run_step.

Ltac library_errors :=
  repeat match goal with
    | H : Web3Wrapper.toBaseUnitAmount _ _ = inl _ |- _ =>
        apply toBaseUnitAmount_error in H; subst
    end.

(** Case analysis on membership in an explicit list. *)
Ltac in_cases H :=
  cbn in H;
  repeat (destruct H as [H | H]; [try discriminate H |]);
  try contradiction.

Ltac find_follows :=
  repeat first [apply follows_here | apply follows_later].

Ltac find_precedes :=
  repeat first [apply precedes_here; cbn; auto 20 | apply precedes_later].

Section Properties.

Variable getContractAddressesForChainOrThrow : ChainId -> ContractAddresses.

Local Abbreviation swap := (performSwapAsync getContractAddressesForChainOrThrow).
Local Abbreviation proxy :=
  (erc20Proxy (zeroExDeployedAddresses getContractAddressesForChainOrThrow)).

(** C1 (amended).  When both reads succeed and the balance, converted to a
    unit amount, rounded to 2 decimal places and converted to a double, is
    less than the double of the sell amount, the run shows the alert
    'Not Enough Balance' and then throws
    [Error('Not Enough Balance')], with nothing else after the two reads.
    No other [throw] belongs to [performSwapAsync]: whatever else a run
    throws is the error of [toBaseUnitAmount]. *)
Theorem rounded_balance_guard_alerts_then_throws
  (w : World) (buy sell : ERC20TokenContract) (amount : number)
  (fromAddress : string) (provider : SupportedProvider) (d b : uint) :
  w 0%nat (decimals_callAsync sell) = inr d ->
  w 1%nat (balanceOf_callAsync sell fromAddress) = inr b ->
  (rounded_unit_amount b d < Double.round amount)%Q ->
  trace w (swap buy sell amount fromAddress provider) =
    [Awaited (decimals_callAsync sell) (inr d);
     Awaited (balanceOf_callAsync sell fromAddress) (inr b);
     Performed (alert "Not Enough Balance")]
  /\ outcome w (swap buy sell amount fromAddress provider) =
       Thrown (Error "Not Enough Balance")
  /\ (forall w' e,
        outcome w' (swap buy sell amount fromAddress provider) = Thrown e ->
        e = Error "Not Enough Balance" \/ e = InvalidUnitAmount amount).
Proof.
  intros Hd Hb Hlt. unfold rounded_unit_amount in Hlt.
  apply toNumber_lt_spec in Hlt. unfold rounded_decimal in Hlt.
  repeat split.
  - unfold_swap. rewrite Hd. cbn. rewrite Hb. cbn. rewrite Hlt. reflexivity.
  - unfold_swap. rewrite Hd. cbn. rewrite Hb. cbn. rewrite Hlt. reflexivity.
  - clear. intros w' e. explore; library_errors; intros H;
      try discriminate; injection H as <-; auto.
Qed.

(** C8 (amended).  With both reads answered, the balance error is thrown if
    and only if the balance, converted to a unit amount, rounded to 2 decimal
    places and converted to a double, is less than the double of the sell
    amount; and there is a run (4.999 tokens held, 5 to sell) whose balance
    is strictly below the sell amount and which throws nothing and
    completes. *)
Theorem balance_guard_compares_rounded_balance :
  (forall (w : World) (buy sell : ERC20TokenContract) (amount : number)
          (fromAddress : string) (provider : SupportedProvider) (d b : uint),
      w 0%nat (decimals_callAsync sell) = inr d ->
      w 1%nat (balanceOf_callAsync sell fromAddress) = inr b ->
      (outcome w (swap buy sell amount fromAddress provider) =
         Thrown (Error "Not Enough Balance")
       <-> (rounded_unit_amount b d < Double.round amount)%Q))
  /\ (exists (w : World) (buy sell : ERC20TokenContract)
             (fromAddress : string) (provider : SupportedProvider),
        w 0%nat (decimals_callAsync sell) = inr 3%N
        /\ w 1%nat (balanceOf_callAsync sell fromAddress) = inr 4999%N
        /\ below 4999%N 3%N 5%Q
        /\ outcome w (swap buy sell 5%Q fromAddress provider) = Fulfilled tt).
Proof.
  split.
  - intros w buy sell amount fromAddress provider d b Hd Hb.
    unfold rounded_unit_amount. rewrite <- toNumber_lt_spec.
    unfold rounded_decimal.
    split.
    + unfold_swap. rewrite Hd. cbn. rewrite Hb. cbn.
      destruct (number_lt _ amount) eqn:E; cbn; [reflexivity|].
      repeat run_step; library_errors; intros H; discriminate.
    + intros Hlt. unfold_swap. rewrite Hd. cbn. rewrite Hb. cbn.
      rewrite Hlt. reflexivity.
  - exists (Sample.world 3%N 4999%N 0%N None), Sample.weth, Sample.dai,
      Sample.me, Sample.rpc.
    repeat split.
Qed.

(** C9.  A run that throws [Error('Not Enough Balance')] consists of the
    decimals read, the balance read and the alert: no approval, no quote
    request and no submission was issued. *)
Theorem balance_error_before_any_state_change
  (w : World) (buy sell : ERC20TokenContract) (amount : number)
  (fromAddress : string) (provider : SupportedProvider) :
  outcome w (swap buy sell amount fromAddress provider) =
    Thrown (Error "Not Enough Balance") ->
  (exists d b : uint,
      trace w (swap buy sell amount fromAddress provider) =
        [Awaited (decimals_callAsync sell) (inr d);
         Awaited (balanceOf_callAsync sell fromAddress) (inr b);
         Performed (alert "Not Enough Balance")])
  /\ count KApprove (trace w (swap buy sell amount fromAddress provider)) = 0%nat
  /\ count KHttpGet (trace w (swap buy sell amount fromAddress provider)) = 0%nat
  /\ count KSend (trace w (swap buy sell amount fromAddress provider)) = 0%nat.
Proof.
  explore; library_errors; intros H; try discriminate.
  repeat split. eauto.
Qed.

(** C2 (amended).  By kind, the calls of every run are an initial segment
    of: decimals read, balance read, allowance read, (decimals read,
    approval,) decimals read, quote request, submission, wait for the
    receipt.  Leaving the decimals reads aside, no call of a later step
    precedes a call of an earlier step.  A run makes at most one quote
    request and at most one submission, and a run that completes makes the
    whole sequence, so exactly one of each. *)
Theorem calls_follow_the_walkthrough
  (w : World) (buy sell : ERC20TokenContract) (amount : number)
  (fromAddress : string) (provider : SupportedProvider) :
  (exists approval : bool,
      initial_segment
        (map kind (calls (trace w (swap buy sell amount fromAddress provider))))
        (full_sequence approval))
  /\ steps_in_order
       (main_calls (trace w (swap buy sell amount fromAddress provider)))
  /\ (count KHttpGet (trace w (swap buy sell amount fromAddress provider)) <= 1)%nat
  /\ (count KSend (trace w (swap buy sell amount fromAddress provider)) <= 1)%nat
  /\ (outcome w (swap buy sell amount fromAddress provider) = Fulfilled tt ->
      (exists approval : bool,
          map kind (calls (trace w (swap buy sell amount fromAddress provider)))
          = full_sequence approval)
      /\ count KHttpGet (trace w (swap buy sell amount fromAddress provider)) = 1%nat
      /\ count KSend (trace w (swap buy sell amount fromAddress provider)) = 1%nat).
Proof.
  explore.
  all: split;
    [ first [ exists true; eexists; reflexivity
            | exists false; eexists; reflexivity ] |].
  all: split; [apply nondecreasing_steps_in_order; reflexivity |].
  all: split; [unfold count; cbn; lia |].
  all: split; [unfold count; cbn; lia |].
  all: intros H; try discriminate H.
  all: split;
    [ first [exists true; reflexivity | exists false; reflexivity]
    | split; reflexivity ].
Qed.

(** C3.  A quote request of a run goes to the swap-quote endpoint, and its
    query holds the address of the buy token, the address of the sell
    token, the taker [fromAddress], and as sell amount the decimal string
    of the amount times ten to the decimals that the read just before the
    request returned.  A run makes at most one such request. *)
Theorem quote_request_parameters
  (w : World) (buy sell : ERC20TokenContract) (amount : number)
  (fromAddress : string) (provider : SupportedProvider)
  (url : string) (params : ZeroExSwapAPIParams) :
  In (axios_get url params)
     (calls (trace w (swap buy sell amount fromAddress provider))) ->
  url = "https://kovan.api.0x.org/swap/v0/quote"
  /\ (exists (d : uint) (base : BigNumber.t) r,
         follows (Awaited (decimals_callAsync sell) (inr d))
                 (Awaited (axios_get url params) r)
                 (trace w (swap buy sell amount fromAddress provider))
         /\ (base == amount * BigNumber.pow10 d)%Q
         /\ params = {| buyToken := address buy;
                        sellToken := address sell;
                        sellAmount := BigNumber.toString base;
                        takerAddress := fromAddress |})
  /\ (count KHttpGet (trace w (swap buy sell amount fromAddress provider)) <= 1)%nat.
Proof.
  explore; intros H; in_cases H.
  all: injection H as <- <-.
  all: split; [reflexivity |].
  all: split; [| unfold count; cbn; lia].
  all: do 3 eexists; split; [find_follows |].
  all: split; [| reflexivity].
  all: apply toBaseUnitAmount_exact; assumption.
Qed.

(** C4 (amended).  An approval is issued only after the decimals, balance
    and allowance reads, and only if the allowance, converted to a unit
    amount, rounded to 2 decimal places and converted to a double, is below
    the double of the sell amount.  A run that completes has read the
    balance and the allowance granted to the 0x ERC20 proxy, has submitted
    one transaction, and has issued the approval exactly when that double
    is below the double of the sell amount. *)
Theorem approval_iff_rounded_allowance_below
  (w : World) (buy sell : ERC20TokenContract) (amount : number)
  (fromAddress : string) (provider : SupportedProvider) :
  (forall c,
      In c (calls (trace w (swap buy sell amount fromAddress provider))) ->
      kind c = KApprove ->
      exists (d b a : uint) t',
        trace w (swap buy sell amount fromAddress provider) =
          Awaited (decimals_callAsync sell) (inr d)
          :: Awaited (balanceOf_callAsync sell fromAddress) (inr b)
          :: Awaited (allowance_callAsync sell fromAddress proxy) (inr a)
          :: t'
        /\ (rounded_unit_amount a d < Double.round amount)%Q)
  /\ (outcome w (swap buy sell amount fromAddress provider) = Fulfilled tt ->
      exists (d b a : uint) t',
        trace w (swap buy sell amount fromAddress provider) =
          Awaited (decimals_callAsync sell) (inr d)
          :: Awaited (balanceOf_callAsync sell fromAddress) (inr b)
          :: Awaited (allowance_callAsync sell fromAddress proxy) (inr a)
          :: t'
        /\ count KSend (trace w (swap buy sell amount fromAddress provider)) = 1%nat
        /\ (count KApprove (trace w (swap buy sell amount fromAddress provider)) = 1%nat
            <-> (rounded_unit_amount a d < Double.round amount)%Q)
        /\ (count KApprove (trace w (swap buy sell amount fromAddress provider)) = 0%nat
            <-> ~ (rounded_unit_amount a d < Double.round amount)%Q)).
Proof.
  unfold rounded_unit_amount, rounded_decimal.
  explore; (split; [intros c H K; in_cases H | intros H; try discriminate H]).
  all: try (subst c; discriminate K).
  all: do 4 eexists; split; [reflexivity |].
  all: try (apply toNumber_lt_spec; assumption).
  all: split; [reflexivity |].
  all: rewrite <- toNumber_lt_spec;
    match goal with E : number_lt _ _ = _ |- _ => rewrite E end;
    unfold count; cbn; split; split; congruence.
Qed.

(** C5.  A submission of a run is made through a client of [provider]; its
    [to], [data], [gas], [gasPrice] and [value] are those of the quote that
    the request of the same run returned, its [from] is [fromAddress], and
    every approval of the run comes before it.  A run submits at most
    once, and a run that completes submits exactly once. *)
Theorem submitted_transaction_comes_from_quote
  (w : World) (buy sell : ERC20TokenContract) (amount : number)
  (fromAddress : string) (provider : SupportedProvider) :
  (forall client tx,
      In (sendTransactionAsync client tx)
         (calls (trace w (swap buy sell amount fromAddress provider))) ->
      client = {| provider_of := provider |}
      /\ (exists url params (httpResponse : AxiosResponse) r,
             precedes (Awaited (axios_get url params) (inr httpResponse))
                      (Awaited (sendTransactionAsync client tx) r)
                      (trace w (swap buy sell amount fromAddress provider))
             /\ tx = {| TxData.from := fromAddress;
                        TxData.to := Quote.to (response_data httpResponse);
                        TxData.data := Quote.data (response_data httpResponse);
                        TxData.gas := Quote.gas (response_data httpResponse);
                        TxData.gasPrice := Quote.gasPrice (response_data httpResponse);
                        TxData.value := Quote.value (response_data httpResponse) |})
      /\ (forall c,
             In c (calls (trace w (swap buy sell amount fromAddress provider))) ->
             kind c = KApprove ->
             precedes c (sendTransactionAsync client tx)
               (calls (trace w (swap buy sell amount fromAddress provider)))))
  /\ (count KSend (trace w (swap buy sell amount fromAddress provider)) <= 1)%nat
  /\ (outcome w (swap buy sell amount fromAddress provider) = Fulfilled tt ->
      count KSend (trace w (swap buy sell amount fromAddress provider)) = 1%nat).
Proof.
  explore.
  all: split; [| split; [unfold count; cbn; lia
                        | intros H; try discriminate H; reflexivity]].
  all: intros client tx H; in_cases H.
  all: injection H as <- <-.
  all: split; [reflexivity |].
  all: split; [do 4 eexists; split; [find_precedes | reflexivity] |].
  all: intros c H K; in_cases H; try (subst c; discriminate K).
  all: subst c; find_precedes.
Qed.

(** C6.  [performSwapAsync] has no [try ... catch].  When a call of a run is
    rejected, whichever call it is, it is the last event of the run and the
    run is rejected with the very same value; and a run is rejected only in
    this way. *)
Theorem rejections_propagate
  (w : World) (buy sell : ERC20TokenContract) (amount : number)
  (fromAddress : string) (provider : SupportedProvider) :
  handler_free (swap buy sell amount fromAddress provider)
  /\ (forall ev e,
        In ev (trace w (swap buy sell amount fromAddress provider)) ->
        rejected_with ev = Some e ->
        outcome w (swap buy sell amount fromAddress provider) = Rejected e
        /\ exists pre,
            trace w (swap buy sell amount fromAddress provider)
            = (pre ++ [ev])%list)
  /\ (forall e,
        outcome w (swap buy sell amount fromAddress provider) = Rejected e ->
        exists c pre,
          trace w (swap buy sell amount fromAddress provider)
          = (pre ++ [Awaited c (inl e)])%list).
Proof.
  assert (F : handler_free (swap buy sell amount fromAddress provider)).
  { unfold performSwapAsync, convertValueFromHumanToEthereum, await, perform.
    repeat first
      [ apply hf_Return | apply hf_Throw | apply hf_Effect
      | apply hf_Await; intros ?
      | apply handler_free_bind; [| intros ?]
      | match goal with
        | |- handler_free (if ?b then _ else _) => destruct b
        | |- handler_free (lift ?r) => destruct r; cbn
        end
      | progress cbn ]. }
  split; [exact F |]. split.
  - intros ev e. apply (handler_free_propagates _ F w 0%nat ev e).
  - clear F. explore.
    all: intros e' H; try discriminate H; injection H as <-;
      lazymatch goal with
      | |- exists c pre, ?l = _ =>
          lazymatch eval cbn in (last l (Performed (alert ""))) with
          | Awaited ?c _ => exists c, (removelast l); reflexivity
          end
      end.
Qed.

(** C10.  An approval of a run is an approval on the sell token, sent from
    [fromAddress], whose spender is the ERC20 proxy of the Kovan address
    table and whose amount is the sell amount times ten to the decimals
    that the read just before it returned.  A run approves at most
    once. *)
Theorem approval_spender_and_amount
  (w : World) (buy sell : ERC20TokenContract) (amount : number)
  (fromAddress : string) (provider : SupportedProvider)
  (token : ERC20TokenContract) (spender : string) (approved : BigNumber.t)
  (txFrom : string) :
  In (approve_awaitTransactionSuccessAsync token spender approved txFrom)
     (calls (trace w (swap buy sell amount fromAddress provider))) ->
  token = sell
  /\ spender = erc20Proxy (getContractAddressesForChainOrThrow Kovan)
  /\ txFrom = fromAddress
  /\ (exists (d : uint) r,
         follows (Awaited (decimals_callAsync sell) (inr d))
                 (Awaited (approve_awaitTransactionSuccessAsync
                             token spender approved txFrom) r)
                 (trace w (swap buy sell amount fromAddress provider))
         /\ (approved == amount * BigNumber.pow10 d)%Q)
  /\ (count KApprove (trace w (swap buy sell amount fromAddress provider)) <= 1)%nat.
Proof.
  explore; intros H; in_cases H.
  all: injection H as <- <- <- <-.
  all: repeat (split; [reflexivity |]).
  all: split; [| unfold count; cbn; lia].
  all: do 2 eexists; split; [find_follows |].
  all: apply toBaseUnitAmount_exact; assumption.
Qed.

End Properties.

(** ** The claims at sample inputs *)

(** C1, as stated, fails: 4.999 tokens are held (4999 base units of a token
    with 3 decimals) and 5 are to be sold, so the balance is insufficient;
    the run shows no alert, throws nothing and completes. *)
Lemma insufficient_balance_passes_the_guard :
  below 4999%N 3%N 5%Q
  /\ outcome (Sample.world 3%N 4999%N 0%N None) (Sample.swap 5%Q) = Fulfilled tt
  /\ ~ In (Performed (alert "Not Enough Balance"))
          (trace (Sample.world 3%N 4999%N 0%N None) (Sample.swap 5%Q)).
Proof.
  split; [reflexivity |]. split; [reflexivity |].
  vm_compute. intros H.
  repeat (destruct H as [H | H]; [discriminate H |]). exact H.
Qed.

Lemma rounded_balance_guard_alerts_then_throws_witness :
  (rounded_unit_amount 4994%N 3%N < Double.round 5)%Q
  /\ trace (Sample.world 3%N 4994%N 0%N None) (Sample.swap 5%Q) =
       [Awaited (decimals_callAsync Sample.dai) (inr 3%N);
        Awaited (balanceOf_callAsync Sample.dai Sample.me) (inr 4994%N);
        Performed (alert "Not Enough Balance")]
  /\ outcome (Sample.world 3%N 4994%N 0%N None) (Sample.swap 5%Q) =
       Thrown (Error "Not Enough Balance").
Proof.
  split; [reflexivity |].
  pose proof (rounded_balance_guard_alerts_then_throws Sample.addresses
                (Sample.world 3%N 4994%N 0%N None) Sample.weth Sample.dai 5%Q
                Sample.me Sample.rpc 3%N 4994%N eq_refl eq_refl eq_refl)
    as [Ht [Ho _]].
  split; [exact Ht | exact Ho].
Defined.

(** C2, as stated, fails: with no allowance granted, the run approves and
    then reads the decimals once more, a call of the first step after a call
    of the second. *)
Lemma decimals_read_follows_the_approval :
  ~ steps_in_order
      (calls (trace (Sample.world 3%N 10000%N 0%N None) (Sample.swap 5%Q))).
Proof.
  intros H.
  assert (P : precedes
                (approve_awaitTransactionSuccessAsync Sample.dai
                   (erc20Proxy (Sample.addresses Kovan)) 5000%Q Sample.me)
                (decimals_callAsync Sample.dai)
                (calls (trace (Sample.world 3%N 10000%N 0%N None)
                          (Sample.swap 5%Q)))).
  { vm_compute. repeat first [apply precedes_here; simpl; tauto | apply precedes_later]. }
  apply H in P. vm_compute in P. lia.
Qed.

Lemma calls_follow_the_walkthrough_witness :
  outcome (Sample.world 3%N 10000%N 0%N None) (Sample.swap 5%Q) = Fulfilled tt
  /\ count KHttpGet (trace (Sample.world 3%N 10000%N 0%N None) (Sample.swap 5%Q)) = 1%nat
  /\ count KSend (trace (Sample.world 3%N 10000%N 0%N None) (Sample.swap 5%Q)) = 1%nat.
Proof.
  split; [reflexivity |].
  pose proof (calls_follow_the_walkthrough Sample.addresses
                (Sample.world 3%N 10000%N 0%N None) Sample.weth Sample.dai 5%Q
                Sample.me Sample.rpc) as [_ [_ [_ [_ H]]]].
  destruct (H eq_refl) as [_ Hc]. exact Hc.
Defined.

Lemma quote_request_parameters_witness :
  In (axios_get "https://kovan.api.0x.org/swap/v0/quote"
        {| buyToken := address Sample.weth;
           sellToken := address Sample.dai;
           sellAmount := "5000";
           takerAddress := Sample.me |})
     (calls (trace (Sample.world 3%N 10000%N 0%N None) (Sample.swap 5%Q)))
  /\ exists (d : uint) (base : BigNumber.t) r,
      follows (Awaited (decimals_callAsync Sample.dai) (inr d))
              (Awaited
                 (axios_get "https://kovan.api.0x.org/swap/v0/quote"
                    {| buyToken := address Sample.weth;
                       sellToken := address Sample.dai;
                       sellAmount := "5000";
                       takerAddress := Sample.me |}) r)
              (trace (Sample.world 3%N 10000%N 0%N None) (Sample.swap 5%Q))
      /\ (base == 5 * BigNumber.pow10 d)%Q
      /\ {| buyToken := address Sample.weth;
            sellToken := address Sample.dai;
            sellAmount := "5000";
            takerAddress := Sample.me |}
         = {| buyToken := address Sample.weth;
              sellToken := address Sample.dai;
              sellAmount := BigNumber.toString base;
              takerAddress := Sample.me |}.
Proof.
  assert (H : In (axios_get "https://kovan.api.0x.org/swap/v0/quote"
                    {| buyToken := address Sample.weth;
                       sellToken := address Sample.dai;
                       sellAmount := "5000";
                       takerAddress := Sample.me |})
                 (calls (trace (Sample.world 3%N 10000%N 0%N None)
                           (Sample.swap 5%Q)))).
  { vm_compute. tauto. }
  split; [exact H |].
  exact (proj1 (proj2 (quote_request_parameters Sample.addresses
                         (Sample.world 3%N 10000%N 0%N None) Sample.weth
                         Sample.dai 5%Q Sample.me Sample.rpc _ _ H))).
Defined.

(** C4, as stated, fails twice.  An allowance of 4.999 tokens is below the
    sell amount 5, the run raises no balance error and completes, and no
    approval is issued.  And a run whose quote request is rejected raises no
    balance error and submits nothing. *)
Lemma allowance_below_amount_without_approval :
  (below 4999%N 3%N 5%Q
   /\ outcome (Sample.world 3%N 10000%N 4999%N None) (Sample.swap 5%Q) = Fulfilled tt
   /\ count KApprove
        (trace (Sample.world 3%N 10000%N 4999%N None) (Sample.swap 5%Q)) = 0%nat)
  /\ (outcome (Sample.world 3%N 10000%N 0%N (Some KHttpGet)) (Sample.swap 5%Q)
      = Rejected (Error "rejected")
      /\ count KSend
           (trace (Sample.world 3%N 10000%N 0%N (Some KHttpGet)) (Sample.swap 5%Q))
         = 0%nat).
Proof.
  repeat split.
Qed.

Lemma approval_iff_rounded_allowance_below_witness :
  outcome (Sample.world 3%N 10000%N 4994%N None) (Sample.swap 5%Q) = Fulfilled tt
  /\ exists (d b a : uint) t',
      trace (Sample.world 3%N 10000%N 4994%N None) (Sample.swap 5%Q) =
        Awaited (decimals_callAsync Sample.dai) (inr d)
        :: Awaited (balanceOf_callAsync Sample.dai Sample.me) (inr b)
        :: Awaited (allowance_callAsync Sample.dai Sample.me
                      (erc20Proxy (zeroExDeployedAddresses Sample.addresses)))
             (inr a)
        :: t'
      /\ count KSend
           (trace (Sample.world 3%N 10000%N 4994%N None) (Sample.swap 5%Q)) = 1%nat
      /\ (count KApprove
            (trace (Sample.world 3%N 10000%N 4994%N None) (Sample.swap 5%Q)) = 1%nat
          <-> (rounded_unit_amount a d < Double.round 5)%Q)
      /\ (count KApprove
            (trace (Sample.world 3%N 10000%N 4994%N None) (Sample.swap 5%Q)) = 0%nat
          <-> ~ (rounded_unit_amount a d < Double.round 5)%Q).
Proof.
  split; [reflexivity |].
  exact (proj2 (approval_iff_rounded_allowance_below Sample.addresses
                  (Sample.world 3%N 10000%N 4994%N None) Sample.weth Sample.dai
                  5%Q Sample.me Sample.rpc) eq_refl).
Defined.

Lemma submitted_transaction_comes_from_quote_witness :
  In (sendTransactionAsync {| provider_of := Sample.rpc |}
        {| TxData.from := Sample.me;
           TxData.to := Quote.to Sample.quote;
           TxData.data := Quote.data Sample.quote;
           TxData.gas := Quote.gas Sample.quote;
           TxData.gasPrice := Quote.gasPrice Sample.quote;
           TxData.value := Quote.value Sample.quote |})
     (calls (trace (Sample.world 3%N 10000%N 10000%N None) (Sample.swap 5%Q)))
  /\ outcome (Sample.world 3%N 10000%N 10000%N None) (Sample.swap 5%Q) = Fulfilled tt
  /\ count KSend
       (trace (Sample.world 3%N 10000%N 10000%N None) (Sample.swap 5%Q)) = 1%nat.
Proof.
  split; [vm_compute; tauto |].
  split; [reflexivity |].
  exact (proj2 (proj2 (submitted_transaction_comes_from_quote Sample.addresses
                         (Sample.world 3%N 10000%N 10000%N None) Sample.weth
                         Sample.dai 5%Q Sample.me Sample.rpc)) eq_refl).
Defined.

Lemma rejections_propagate_witness :
  In (Awaited
        (axios_get "https://kovan.api.0x.org/swap/v0/quote"
           {| buyToken := address Sample.weth;
              sellToken := address Sample.dai;
              sellAmount := "5000";
              takerAddress := Sample.me |})
        (inl (Error "rejected")))
     (trace (Sample.world 3%N 10000%N 10000%N (Some KHttpGet)) (Sample.swap 5%Q))
  /\ outcome (Sample.world 3%N 10000%N 10000%N (Some KHttpGet)) (Sample.swap 5%Q)
     = Rejected (Error "rejected").
Proof.
  assert (H : In (Awaited
                    (axios_get "https://kovan.api.0x.org/swap/v0/quote"
                       {| buyToken := address Sample.weth;
                          sellToken := address Sample.dai;
                          sellAmount := "5000";
                          takerAddress := Sample.me |})
                    (inl (Error "rejected")))
                 (trace (Sample.world 3%N 10000%N 10000%N (Some KHttpGet))
                    (Sample.swap 5%Q))).
  { vm_compute. tauto. }
  split; [exact H |].
  exact (proj1 (proj1 (proj2 (rejections_propagate Sample.addresses
                                (Sample.world 3%N 10000%N 10000%N (Some KHttpGet))
                                Sample.weth Sample.dai 5%Q Sample.me Sample.rpc))
                  _ _ H eq_refl)).
Defined.

(** C8, as stated, fails: with 0 decimals, a balance of 2^53 + 3 and a sell
    amount of 2^53 + 4, the rounded balance is less than the amount, but its
    double is 2^53 + 4, and the run throws nothing and completes. *)
Lemma rounded_balance_below_amount_without_error :
  (rounded_decimal 9007199254740995%N 0%N < 9007199254740996)%Q
  /\ outcome
       (Sample.world 0%N 9007199254740995%N 9007199254740996%N None)
       (Sample.swap 9007199254740996%Q)
     = Fulfilled tt.
Proof.
  split; reflexivity.
Qed.

(** The same with the allowance: 90071992547409.01 and 90071992547409.02
    are one double, and no approval is issued. *)
Example allowance_and_amount_of_one_double :
  (rounded_decimal 9007199254740901%N 2%N < 9007199254740902 # 100)%Q
  /\ count KApprove
       (trace
          (Sample.world 2%N 9007199254740902%N 9007199254740901%N None)
          (Sample.swap (9007199254740902 # 100)))
     = 0%nat.
Proof.
  split; reflexivity.
Qed.

(** A handler changes what the caller sees: the rejected read of
    [guarded_decimals_read] is caught and the run completes. *)
Example a_handler_swallows_the_rejection :
  ~ handler_free (guarded_decimals_read Sample.dai)
  /\ trace (Sample.world 18%N 0%N 0%N (Some KDecimals))
       (guarded_decimals_read Sample.dai)
     = [Awaited (decimals_callAsync Sample.dai) (inl (Error "rejected"))]
  /\ outcome (Sample.world 18%N 0%N 0%N (Some KDecimals))
       (guarded_decimals_read Sample.dai)
     = Fulfilled tt.
Proof.
  split; [intros H; inversion H |]. split; reflexivity.
Qed.

Lemma balance_guard_compares_rounded_balance_witness :
  (rounded_unit_amount 4994%N 3%N < Double.round 5)%Q
  /\ outcome (Sample.world 3%N 4994%N 0%N None) (Sample.swap 5%Q)
     = Thrown (Error "Not Enough Balance").
Proof.
  split; [reflexivity |].
  apply (proj1 (balance_guard_compares_rounded_balance Sample.addresses)
           (Sample.world 3%N 4994%N 0%N None) Sample.weth Sample.dai 5%Q
           Sample.me Sample.rpc 3%N 4994%N eq_refl eq_refl).
  reflexivity.
Defined.

Lemma balance_error_before_any_state_change_witness :
  outcome (Sample.world 3%N 4994%N 0%N None) (Sample.swap 5%Q)
  = Thrown (Error "Not Enough Balance")
  /\ count KApprove (trace (Sample.world 3%N 4994%N 0%N None) (Sample.swap 5%Q)) = 0%nat
  /\ count KHttpGet (trace (Sample.world 3%N 4994%N 0%N None) (Sample.swap 5%Q)) = 0%nat
  /\ count KSend (trace (Sample.world 3%N 4994%N 0%N None) (Sample.swap 5%Q)) = 0%nat.
Proof.
  split; [reflexivity |].
  exact (proj2 (balance_error_before_any_state_change Sample.addresses
                  (Sample.world 3%N 4994%N 0%N None) Sample.weth Sample.dai 5%Q
                  Sample.me Sample.rpc eq_refl)).
Defined.

Lemma approval_spender_and_amount_witness :
  In (approve_awaitTransactionSuccessAsync Sample.dai
        (erc20Proxy (Sample.addresses Kovan)) 5000%Q Sample.me)
     (calls (trace (Sample.world 3%N 10000%N 0%N None) (Sample.swap 5%Q)))
  /\ exists (d : uint) r,
      follows (Awaited (decimals_callAsync Sample.dai) (inr d))
              (Awaited
                 (approve_awaitTransactionSuccessAsync Sample.dai
                    (erc20Proxy (Sample.addresses Kovan)) 5000%Q Sample.me) r)
              (trace (Sample.world 3%N 10000%N 0%N None) (Sample.swap 5%Q))
      /\ (5000 == 5 * BigNumber.pow10 d)%Q.
Proof.
  assert (H : In (approve_awaitTransactionSuccessAsync Sample.dai
                    (erc20Proxy (Sample.addresses Kovan)) 5000%Q Sample.me)
                 (calls (trace (Sample.world 3%N 10000%N 0%N None)
                           (Sample.swap 5%Q)))).
  { vm_compute. tauto. }
  split; [exact H |].
  exact (proj1 (proj2 (proj2 (proj2
           (approval_spender_and_amount Sample.addresses
              (Sample.world 3%N 10000%N 0%N None) Sample.weth Sample.dai 5%Q
              Sample.me Sample.rpc _ _ _ _ H))))).
Defined.

(** ** More facts about the library model *)

(** The quotient [m] of the rounding: the bounds that define it. *)
Lemma round_quotient_bounds (n s : Z) (d : positive) :
  let m := ((2 * n * s + Z.pos d) / (2 * Z.pos d))%Z in
  (2 * Z.pos d * m <= 2 * n * s + Z.pos d < 2 * Z.pos d * m + 2 * Z.pos d)%Z.
Proof.
  intros m. unfold m.
  pose proof (Z.mul_div_le (2 * n * s + Z.pos d) (2 * Z.pos d) ltac:(lia)).
  pose proof (Z.mul_succ_div_gt (2 * n * s + Z.pos d) (2 * Z.pos d) ltac:(lia)).
  lia.
Qed.

Lemma round_half_up_nonneg (dp : nat) (x : BigNumber.t) :
  (0 <= x)%Q -> (0 <= BigNumber.round_half_up dp x)%Q.
Proof.
  destruct x as [n d]. unfold Qle, BigNumber.round_half_up. cbn [Qnum Qden].
  intros Hn. rewrite Z.mul_1_r in *. cbn in Hn.
  pose proof (pow10_pos dp) as Hs.
  pose proof (round_quotient_bounds (Z.abs n) (10 ^ Z.of_nat dp) d) as Hm.
  cbv zeta in Hm.
  set (m := ((2 * Z.abs n * _ + _) / _)%Z) in *.
  assert (0 <= m)%Z by nia.
  pose proof (Z.sgn_nonneg n). 
  assert (0 <= Z.sgn n)%Z by lia.
  cbn. nia.
Qed.

Lemma round_half_up_monotone (dp : nat) (x y : BigNumber.t) :
  (0 <= x)%Q -> (x <= y)%Q ->
  (BigNumber.round_half_up dp x <= BigNumber.round_half_up dp y)%Q.
Proof.
  destruct x as [n d], y as [n' d'].
  unfold Qle, BigNumber.round_half_up. cbn [Qnum Qden].
  rewrite Z.mul_1_r. change (0 * Z.pos d)%Z with 0%Z.
  intros Hn Hxy.
  pose proof (pow10_pos dp) as Hs.
  set (s := (10 ^ Z.of_nat dp)%Z) in *.
  assert (Hn' : (0 <= n')%Z) by nia.
  rewrite !Z.abs_eq by assumption.
  pose proof (round_quotient_bounds n s d) as Hm.
  pose proof (round_quotient_bounds n' s d') as Hm'.
  cbv zeta in Hm, Hm'.
  set (m := ((2 * n * s + _) / _)%Z) in *.
  set (m' := ((2 * n' * s + _) / _)%Z) in *.
  assert (Hmm : (m <= m')%Z).
  { assert (0 <= m)%Z by nia. 
    apply Z.lt_succ_r. 
    apply (Z.mul_lt_mono_pos_l (2 * Z.pos d * Z.pos d')); [lia|].
    assert (2 * Z.pos d * Z.pos d' * m <= (2 * n * s + Z.pos d) * Z.pos d')%Z by nia.
    assert ((2 * n' * s + Z.pos d') * Z.pos d < 2 * Z.pos d * Z.pos d' * Z.succ m')%Z by nia.
    assert (n * s * Z.pos d' <= n' * s * Z.pos d)%Z by nia.
    nia. }
  assert (Hsm : (Z.sgn n * m = m)%Z).
  { destruct (Z.eq_dec n 0) as [E | E].
    - assert (m = 0)%Z by (subst n; nia). subst n; lia.
    - rewrite Z.sgn_pos by lia. lia. }
  assert (Hsm' : (Z.sgn n' * m' = m')%Z).
  { destruct (Z.eq_dec n' 0) as [E | E].
    - assert (m' = 0)%Z by (subst n'; nia). subst n'; lia.
    - rewrite Z.sgn_pos by lia. lia. }
  rewrite Hsm, Hsm'.
  apply Z.mul_le_mono_nonneg_r; [lia | exact Hmm].
Qed.

Lemma round_half_up_lt_grid (dp : nat) (x : BigNumber.t) (k : Z) :
  (0 <= x)%Q ->
  (BigNumber.round_half_up dp x < k # Z.to_pos (10 ^ Z.of_nat dp)
   <-> x < (2 * k - 1) # (2 * Z.to_pos (10 ^ Z.of_nat dp)))%Q.
Proof.
  destruct x as [n d].
  unfold Qle, Qlt, BigNumber.round_half_up. cbn [Qnum Qden].
  rewrite Z.mul_1_r. change (0 * Z.pos d)%Z with 0%Z. intros Hn.
  pose proof (pow10_pos dp) as Hs.
  rewrite Pos2Z.inj_mul, !Z2Pos.id by exact Hs.
  set (s := (10 ^ Z.of_nat dp)%Z) in *.
  rewrite Z.abs_eq by exact Hn.
  pose proof (round_quotient_bounds n s d) as Hm. cbv zeta in Hm.
  set (m := ((2 * n * s + _) / _)%Z) in *.
  assert (Hsm : (Z.sgn n * m = m)%Z).
  { destruct (Z.eq_dec n 0) as [E | E].
    - assert (m = 0)%Z by (subst n; nia). subst n; lia.
    - rewrite Z.sgn_pos by lia. lia. }
  rewrite Hsm. change (Z.pos 2) with 2%Z.
  split; intros H.
  - assert (m < k)%Z by nia. nia.
  - assert (m < k)%Z by nia. nia.
Qed.

Lemma unit_quotient_nonneg (x : uint) (decimals : N) :
  (0 <= BigNumber.of_uint x / BigNumber.pow10 decimals)%Q.
Proof.
  unfold Qdiv. apply Qmult_le_0_compat.
  - unfold BigNumber.of_uint, Qle. cbn. lia.
  - apply Qinv_le_0_compat. unfold BigNumber.pow10, Qle. cbn.
    rewrite Z.mul_1_r. apply Z.pow_nonneg. lia.
Qed.

Lemma toUnitAmount_nonneg (x : uint) (decimals : N) :
  (0 <= Web3Wrapper.toUnitAmount (BigNumber.of_uint x) decimals)%Q.
Proof.
  unfold Web3Wrapper.toUnitAmount, BigNumber.div.
  apply round_half_up_nonneg, unit_quotient_nonneg.
Qed.

Lemma rounded_decimal_nonneg (x : uint) (decimals : N) :
  (0 <= rounded_decimal x decimals)%Q.
Proof.
  unfold rounded_decimal, BigNumber.decimalPlaces.
  apply round_half_up_nonneg, toUnitAmount_nonneg.
Qed.

Lemma rounded_unit_amount_nonneg (x : uint) (decimals : N) :
  (0 <= rounded_unit_amount x decimals)%Q.
Proof.
  unfold rounded_unit_amount, BigNumber.toNumber.
  apply DoubleFacts.round_nonneg, rounded_decimal_nonneg.
Qed.

Lemma rounded_decimal_monotone (x x' : uint) (decimals : N) :
  (x <= x')%N ->
  (rounded_decimal x decimals <= rounded_decimal x' decimals)%Q.
Proof.
  intros H.
  unfold rounded_decimal, BigNumber.decimalPlaces.
  apply round_half_up_monotone; [apply toUnitAmount_nonneg |].
  unfold Web3Wrapper.toUnitAmount, BigNumber.div.
  apply round_half_up_monotone; [apply unit_quotient_nonneg |].
  unfold Qdiv. apply Qmult_le_compat_r.
  - unfold BigNumber.of_uint, Qle. cbn. lia.
  - apply Qinv_le_0_compat. unfold BigNumber.pow10, Qle. cbn.
    rewrite Z.mul_1_r. apply Z.pow_nonneg. lia.
Qed.

Lemma rounded_unit_amount_monotone (x x' : uint) (decimals : N) :
  (x <= x')%N ->
  (rounded_unit_amount x decimals <= rounded_unit_amount x' decimals)%Q.
Proof.
  intros H. unfold rounded_unit_amount, BigNumber.toNumber.
  apply DoubleFacts.round_mono, rounded_decimal_monotone, H.
Qed.

(** A value rounded to 2 decimal places is a number of hundredths. *)
Lemma rounded_decimal_hundredths (x : uint) (decimals : N) :
  exists j : Z, rounded_decimal x decimals = j # 100.
Proof.
  unfold rounded_decimal, BigNumber.decimalPlaces, BigNumber.round_half_up.
  eexists. reflexivity.
Qed.

(** For a token of at most 78 decimals and an amount of a whole number of
    hundredths, the rounded decimal is below the amount exactly when the
    true unit amount is below it by more than half a hundredth. *)
Lemma rounded_decimal_lt_cents (x : uint) (decimals : N) (amount : number) (k : Z) :
  (decimals <= 78)%N -> (amount == k # 100)%Q ->
  (rounded_decimal x decimals < amount
   <-> BigNumber.of_uint x / BigNumber.pow10 decimals < amount - (1 # 200))%Q.
Proof.
  intros Hd Hk.
  unfold rounded_decimal, BigNumber.decimalPlaces.
  rewrite <- (toUnitAmount_exact x decimals Hd).
  pose proof (round_half_up_lt_grid 2 _ k (toUnitAmount_nonneg x decimals)) as G.
  change (Z.to_pos (10 ^ Z.of_nat 2)) with 100%positive in G.
  assert (E : (amount - (1 # 200) == (2 * k - 1) # (2 * 100))%Q).
  { rewrite Hk. unfold Qeq, Qminus, Qplus, Qopp. cbn [Qnum Qden].
    rewrite !Pos2Z.inj_mul. ring. }
  rewrite Hk at 1. rewrite E. exact G.
Qed.

(** Below [2 ^ 46] a double is within [2 ^ -8] of the value it rounds. *)
Lemma double_near_below_2_46 (x : Q) :
  (0 <= x)%Q -> (x < inject_Z (2 ^ 46))%Q ->
  (Qabs (Double.round x - x) <= 1 # 256)%Q.
Proof.
  intros H0 H.
  apply (DoubleFacts.round_near x 46 H0); [| unfold Double.emin; lia].
  rewrite DoubleFacts.pow2_Z by lia. exact H.
Qed.

(** Below [2 ^ 46], two values a hundredth apart round to different
    doubles. *)
Lemma double_separates_hundredths (r a : Q) :
  (0 <= r)%Q -> (r + (1 # 100) <= a)%Q -> (a < inject_Z (2 ^ 46))%Q ->
  (Double.round r < Double.round a)%Q.
Proof.
  intros H0 Hra Ha.
  assert (Hr : (r < inject_Z (2 ^ 46))%Q) by lra.
  assert (Ha0 : (0 <= a)%Q) by lra.
  pose proof (double_near_below_2_46 r H0 Hr) as Nr.
  pose proof (double_near_below_2_46 a Ha0 Ha) as Na.
  apply Qabs_Qle_condition in Nr. apply Qabs_Qle_condition in Na.
  lra.
Qed.

(** For a token of at most 78 decimals and an amount below [2 ^ 46] of a
    whole number of hundredths, the guard's comparison of doubles is the
    comparison of the true unit amount with the amount less half a
    hundredth. *)
Lemma rounded_lt_cents (x : uint) (decimals : N) (amount : number) (k : Z) :
  (decimals <= 78)%N -> (amount == k # 100)%Q ->
  (amount < inject_Z (2 ^ 46))%Q ->
  (rounded_unit_amount x decimals < Double.round amount
   <-> BigNumber.of_uint x / BigNumber.pow10 decimals < amount - (1 # 200))%Q.
Proof.
  intros Hd Hk Ha.
  rewrite <- (rounded_decimal_lt_cents x decimals amount k Hd Hk).
  unfold rounded_unit_amount, BigNumber.toNumber.
  pose proof (rounded_decimal_nonneg x decimals) as H0.
  destruct (rounded_decimal_hundredths x decimals) as [j Ej].
  set (r := rounded_decimal x decimals) in *.
  split; intros H.
  - apply Qnot_le_lt. intros L.
    apply (Qlt_not_le _ _ H). apply DoubleFacts.round_mono, L.
  - apply double_separates_hundredths; [exact H0 | | exact Ha].
    rewrite Ej, Hk in *.
    unfold Qlt in H. unfold Qle, Qplus. cbn in *. lia.
Qed.

(** The rounded decimal is within half a hundredth of the true unit
    amount. *)
Lemma rounded_decimal_near (x : uint) (decimals : N) :
  (decimals <= 78)%N ->
  (Qabs (rounded_decimal x decimals
         - BigNumber.of_uint x / BigNumber.pow10 decimals) <= 1 # 200)%Q.
Proof.
  intros Hd.
  unfold rounded_decimal, BigNumber.decimalPlaces.
  rewrite <- (toUnitAmount_exact x decimals Hd).
  apply (round_half_up_nearest 2).
Qed.

Lemma toString_parse (x : BigNumber.t) :
  parse_integer (BigNumber.toString x) = Some (BigNumber.to_Z x).
Proof.
  unfold parse_integer, BigNumber.toString.
  rewrite NilZero.isi.
  - cbn. f_equal. apply DecimalZ.of_to.
  - destruct (BigNumber.to_Z x); cbn; try discriminate.
    intros [= H]. revert H. apply DecimalPos.Unsigned.to_uint_nonnil.
  - destruct (BigNumber.to_Z x); cbn; try discriminate.
    intros [= H]. revert H. apply DecimalPos.Unsigned.to_uint_nonnil.
Qed.

Lemma hasDecimals_false_iff (x : BigNumber.t) :
  BigNumber.hasDecimals x = false <-> exists z, (x == inject_Z z)%Q.
Proof.
  split.
  - intros H. exists (BigNumber.to_Z x). symmetry. apply to_Z_exact, H.
  - intros [z Hz]. destruct x as [n d]. unfold Qeq in Hz. cbn in Hz.
    unfold BigNumber.hasDecimals. cbn [Qnum Qden].
    apply negb_false_iff, Z.eqb_eq.
    rewrite Z.mul_1_r in Hz. rewrite Hz. apply Z.rem_mul. discriminate.
Qed.

(** [toBaseUnitAmount] succeeds exactly on whole numbers of base units. *)
Lemma toBaseUnitAmount_succeeds_iff (amount : number) (decimals : N) :
  (exists base, Web3Wrapper.toBaseUnitAmount amount decimals = inr base)
  <-> whole_base_units amount decimals.
Proof.
  unfold Web3Wrapper.toBaseUnitAmount, whole_base_units.
  destruct (BigNumber.hasDecimals _) eqn:E.
  - split; [intros [base H]; discriminate H |].
    intros [z Hz]. exfalso.
    assert (F : BigNumber.hasDecimals
                  (BigNumber.times (BigNumber.pow10 decimals)
                     (BigNumber.of_number amount)) = false).
    { apply hasDecimals_false_iff. exists z.
      unfold BigNumber.times, BigNumber.of_number.
      rewrite Qmult_comm. exact Hz. }
    congruence.
  - split; [intros _ | eauto].
    apply hasDecimals_false_iff in E. destruct E as [z Hz]. exists z.
    unfold BigNumber.times, BigNumber.of_number in Hz.
    rewrite Qmult_comm. exact Hz.
Qed.

Lemma toBaseUnitAmount_fails (amount : number) (decimals : N) (e : exception) :
  Web3Wrapper.toBaseUnitAmount amount decimals = inl e ->
  ~ whole_base_units amount decimals.
Proof.
  intros H W. apply toBaseUnitAmount_succeeds_iff in W.
  destruct W as [base W]. congruence.
Qed.

(** What [toBaseUnitAmount] returns is written as an integer. *)
Lemma toBaseUnitAmount_to_Z (amount : number) (decimals : N) (base : BigNumber.t) :
  Web3Wrapper.toBaseUnitAmount amount decimals = inr base ->
  base = inject_Z (BigNumber.to_Z base).
Proof.
  unfold Web3Wrapper.toBaseUnitAmount.
  destruct (BigNumber.hasDecimals _); [discriminate |].
  intros [= <-]. set (z := BigNumber.to_Z _).
  unfold BigNumber.to_Z, inject_Z. cbn [Qnum Qden]. rewrite Z.div_1_r.
  reflexivity.
Qed.

Section MoreProperties.

Variable getContractAddressesForChainOrThrow : ChainId -> ContractAddresses.

Local Abbreviation swap := (performSwapAsync getContractAddressesForChainOrThrow).
Local Abbreviation proxy :=
  (erc20Proxy (zeroExDeployedAddresses getContractAddressesForChainOrThrow)).

(** With both reads answered, the balance error is thrown exactly when the
    double of the rounded balance is below the double of the sell amount. *)
Lemma balance_error_iff
  (w : World) (buy sell : ERC20TokenContract) (amount : number)
  (fromAddress : string) (provider : SupportedProvider) (d b : uint) :
  w 0%nat (decimals_callAsync sell) = inr d ->
  w 1%nat (balanceOf_callAsync sell fromAddress) = inr b ->
  (outcome w (swap buy sell amount fromAddress provider) =
     Thrown (Error "Not Enough Balance")
   <-> (rounded_unit_amount b d < Double.round amount)%Q).
Proof.
  intros Hd Hb.
  unfold rounded_unit_amount. rewrite <- toNumber_lt_spec.
  unfold rounded_decimal.
  unfold_swap. rewrite Hd. cbn. rewrite Hb. cbn.
  destruct (number_lt _ amount) eqn:E; cbn; [split; reflexivity |].
  split; [| discriminate].
  repeat run_step; library_errors; intros H; discriminate.
Qed.

(** X1.  [convertValueFromHumanToEthereum] makes one call, the decimals read
    on its token.  A rejected read rejects the conversion with the same
    value.  Otherwise it returns the exact product of the amount and ten to
    the decimals when that is a whole number, and throws the error of
    [toBaseUnitAmount] when it is not. *)
Theorem convert_reads_decimals_once
  (w : World) (tokenWrapper : ERC20TokenContract) (unitAmount : number) :
  (forall e,
      w 0%nat (decimals_callAsync tokenWrapper) = inl e ->
      trace w (convertValueFromHumanToEthereum tokenWrapper unitAmount)
      = [Awaited (decimals_callAsync tokenWrapper) (inl e)]
      /\ outcome w (convertValueFromHumanToEthereum tokenWrapper unitAmount)
         = Rejected e)
  /\ (forall d : uint,
         w 0%nat (decimals_callAsync tokenWrapper) = inr d ->
         trace w (convertValueFromHumanToEthereum tokenWrapper unitAmount)
         = [Awaited (decimals_callAsync tokenWrapper) (inr d)]
         /\ (whole_base_units unitAmount d ->
             exists base,
               outcome w (convertValueFromHumanToEthereum tokenWrapper unitAmount)
               = Fulfilled base
               /\ (base == unitAmount * BigNumber.pow10 d)%Q)
         /\ (~ whole_base_units unitAmount d ->
             outcome w (convertValueFromHumanToEthereum tokenWrapper unitAmount)
             = Thrown (InvalidUnitAmount unitAmount))).
Proof.
  split.
  - intros e H. unfold_swap. rewrite H. split; reflexivity.
  - intros d H. unfold_swap. rewrite H. cbn.
    destruct (Web3Wrapper.toBaseUnitAmount unitAmount d) as [e | base] eqn:E;
      cbn.
    + split; [reflexivity |]. split.
      * intros W. exfalso. exact (toBaseUnitAmount_fails _ _ _ E W).
      * intros _. apply toBaseUnitAmount_error in E. subst e. reflexivity.
    + split; [reflexivity |]. split.
      * intros _. exists base. split; [reflexivity |].
        apply toBaseUnitAmount_exact, E.
      * intros W. exfalso. apply W.
        apply toBaseUnitAmount_succeeds_iff. eauto.
Qed.

(** X2.  For a token of at most 78 decimals and a sell amount below
    [2 ^ 46] with at most 2 decimal places, the balance error is thrown
    exactly when the balance in whole tokens is below the sell amount by
    more than half a hundredth. *)
Theorem balance_error_at_cent_precision
  (w : World) (buy sell : ERC20TokenContract) (amount : number)
  (fromAddress : string) (provider : SupportedProvider) (d b : uint) (k : Z) :
  w 0%nat (decimals_callAsync sell) = inr d ->
  w 1%nat (balanceOf_callAsync sell fromAddress) = inr b ->
  (d <= 78)%N ->
  (amount == k # 100)%Q ->
  (amount < inject_Z (2 ^ 46))%Q ->
  (outcome w (swap buy sell amount fromAddress provider) =
     Thrown (Error "Not Enough Balance")
   <-> (BigNumber.of_uint b / BigNumber.pow10 d < amount - (1 # 200))%Q).
Proof.
  intros Hd Hb Hle Hk Ha.
  rewrite (balance_error_iff w buy sell amount fromAddress provider d b Hd Hb).
  apply (rounded_lt_cents b d amount k Hle Hk Ha).
Qed.

(** X3.  For a token of at most 78 decimals, a balance above the sell amount
    by at least 0.005 token never throws the balance error; and for a sell
    amount below [2 ^ 46], a balance below it by more than 0.015 token
    always does. *)
Theorem balance_error_within_half_a_cent
  (w : World) (buy sell : ERC20TokenContract) (amount : number)
  (fromAddress : string) (provider : SupportedProvider) (d b : uint) :
  w 0%nat (decimals_callAsync sell) = inr d ->
  w 1%nat (balanceOf_callAsync sell fromAddress) = inr b ->
  (d <= 78)%N ->
  ((amount < inject_Z (2 ^ 46))%Q ->
   (BigNumber.of_uint b / BigNumber.pow10 d < amount - (3 # 200))%Q ->
   outcome w (swap buy sell amount fromAddress provider)
   = Thrown (Error "Not Enough Balance"))
  /\ ((amount + (1 # 200) <= BigNumber.of_uint b / BigNumber.pow10 d)%Q ->
      outcome w (swap buy sell amount fromAddress provider)
      <> Thrown (Error "Not Enough Balance")).
Proof.
  intros Hd Hb Hle.
  pose proof (rounded_decimal_near b d Hle) as N.
  apply Qabs_Qle_condition in N. destruct N as [Nlo Nhi].
  pose proof (rounded_decimal_nonneg b d) as H0.
  split.
  - intros Ha H.
    apply (balance_error_iff w buy sell amount fromAddress provider d b Hd Hb).
    unfold rounded_unit_amount, BigNumber.toNumber.
    apply double_separates_hundredths; [exact H0 | lra | exact Ha].
  - intros H F.
    apply (balance_error_iff w buy sell amount fromAddress provider d b Hd Hb)
      in F.
    unfold rounded_unit_amount, BigNumber.toNumber in F.
    apply (Qlt_not_le _ _ F). apply DoubleFacts.round_mono. lra.
Qed.

(** A sell amount that is not positive is never above a rounded unit
    amount. *)
Lemma guard_false_nonpositive (x : uint) (d : N) (amount : number) :
  (amount <= 0)%Q ->
  number_lt
    (BigNumber.toNumber
       (BigNumber.decimalPlaces 2
          (Web3Wrapper.toUnitAmount (BigNumber.of_uint x) d)))
    amount = false.
Proof.
  intros H. destruct (number_lt _ amount) eqn:E; [| reflexivity].
  apply toNumber_lt_spec in E. exfalso.
  apply (Qlt_not_le _ _ E).
  apply Qle_trans with 0%Q; [apply DoubleFacts.round_nonpos, H |].
  apply (rounded_unit_amount_nonneg x d).
Qed.

(** X4.  In a run that completes, for a token of at most 78 decimals and a
    sell amount below [2 ^ 46] with at most 2 decimal places, the approval
    is issued exactly when the allowance in whole tokens is below the sell
    amount by more than half a hundredth. *)
Theorem approval_at_cent_precision
  (w : World) (buy sell : ERC20TokenContract) (amount : number)
  (fromAddress : string) (provider : SupportedProvider) (d a : uint) (k : Z) :
  w 0%nat (decimals_callAsync sell) = inr d ->
  w 2%nat (allowance_callAsync sell fromAddress proxy) = inr a ->
  outcome w (swap buy sell amount fromAddress provider) = Fulfilled tt ->
  (d <= 78)%N ->
  (amount == k # 100)%Q ->
  (amount < inject_Z (2 ^ 46))%Q ->
  (count KApprove (trace w (swap buy sell amount fromAddress provider)) = 1%nat
   <-> (BigNumber.of_uint a / BigNumber.pow10 d < amount - (1 # 200))%Q)
  /\ (count KApprove (trace w (swap buy sell amount fromAddress provider)) = 0%nat
      <-> ~ (BigNumber.of_uint a / BigNumber.pow10 d < amount - (1 # 200))%Q).
Proof.
  intros Hd Ha Ho Hle Hk Hlt. revert Ho.
  rewrite <- (rounded_lt_cents a d amount k Hle Hk Hlt).
  unfold rounded_unit_amount. rewrite <- toNumber_lt_spec.
  unfold rounded_decimal.
  unfold_swap. rewrite Hd. cbn.
  run_step; [intros Ho; discriminate Ho |].
  run_step; [intros Ho; discriminate Ho |].
  rewrite Ha. cbn.
  repeat run_step; intros Ho; try discriminate Ho.
  all: unfold count; cbn; split; split; congruence.
Qed.

(** X5.  A sell amount that is zero or negative passes both checks in every
    run: no alert, no balance error and no approval. *)
Theorem nonpositive_amount_passes_both_checks
  (w : World) (buy sell : ERC20TokenContract) (amount : number)
  (fromAddress : string) (provider : SupportedProvider) :
  (amount <= 0)%Q ->
  ~ In (Performed (alert "Not Enough Balance"))
       (trace w (swap buy sell amount fromAddress provider))
  /\ outcome w (swap buy sell amount fromAddress provider)
     <> Thrown (Error "Not Enough Balance")
  /\ count KApprove (trace w (swap buy sell amount fromAddress provider)) = 0%nat.
Proof.
  intros Hle. explore; library_errors.
  all: try match goal with
         | H : number_lt _ _ = true |- _ =>
             rewrite (guard_false_nonpositive _ _ _ Hle) in H; discriminate H
         end.
  all: split; [intros H; in_cases H |].
  all: split; [discriminate | reflexivity].
Qed.

(** X6.  A run that throws the error of [toBaseUnitAmount] throws it for the
    sell amount, right after a decimals read whose answer leaves the amount
    with a fraction of a base unit, and before any quote request or
    submission. *)
Theorem invalid_unit_amount_stops_before_quote
  (w : World) (buy sell : ERC20TokenContract) (amount a : number)
  (fromAddress : string) (provider : SupportedProvider) :
  outcome w (swap buy sell amount fromAddress provider)
  = Thrown (InvalidUnitAmount a) ->
  a = amount
  /\ count KHttpGet (trace w (swap buy sell amount fromAddress provider)) = 0%nat
  /\ count KSend (trace w (swap buy sell amount fromAddress provider)) = 0%nat
  /\ exists (d : uint) pre,
      trace w (swap buy sell amount fromAddress provider)
      = (pre ++ [Awaited (decimals_callAsync sell) (inr d)])%list
      /\ ~ whole_base_units amount d.
Proof.
  explore.
  all: try match goal with
         | H : Web3Wrapper.toBaseUnitAmount _ _ = inl _ |- _ =>
             pose proof (toBaseUnitAmount_fails _ _ _ H) as Hfails
         end.
  all: library_errors; intros H; try discriminate H.
  all: injection H as <-.
  all: repeat (split; [reflexivity |]).
  all: match goal with
       | Hf : ~ whole_base_units _ ?d |- exists d' pre, ?l = _ /\ _ =>
           exists d, (removelast l); split; [reflexivity | exact Hf]
       end.
Qed.

(** X7.  Every call to a token contract goes to the sell token, and every
    call that names an account names [fromAddress]; the buy token is never
    called. *)
Theorem only_the_sell_token_is_called
  (w : World) (buy sell : ERC20TokenContract) (amount : number)
  (fromAddress : string) (provider : SupportedProvider) (c : Call) :
  In c (calls (trace w (swap buy sell amount fromAddress provider))) ->
  (forall token, token_of c = Some token -> token = sell)
  /\ (forall account, account_of c = Some account -> account = fromAddress).
Proof.
  explore; intros H; in_cases H; subst c; cbn.
  all: split; intros ? E; inversion E; reflexivity.
Qed.

(** X8.  The wait for a receipt is made through a client of [provider], for
    the hash that the submission just before it returned. *)
Theorem receipt_wait_follows_submission
  (w : World) (buy sell : ERC20TokenContract) (amount : number)
  (fromAddress : string) (provider : SupportedProvider)
  (client : Web3WrapperClient) (txHash : string) :
  In (awaitTransactionSuccessAsync client txHash)
     (calls (trace w (swap buy sell amount fromAddress provider))) ->
  client = {| provider_of := provider |}
  /\ exists txData r,
      follows (Awaited (sendTransactionAsync client txData) (inr txHash))
              (Awaited (awaitTransactionSuccessAsync client txHash) r)
              (trace w (swap buy sell amount fromAddress provider)).
Proof.
  explore; intros H; in_cases H.
  all: injection H as <- <-.
  all: split; [reflexivity |].
  all: do 2 eexists; find_follows.
Qed.

(** X9.  When every decimals read of a run returns the same value, the
    amount the run approves is the sell amount of its quote request. *)
Theorem approved_amount_is_quoted_amount
  (w : World) (buy sell : ERC20TokenContract) (amount : number)
  (fromAddress : string) (provider : SupportedProvider)
  (token : ERC20TokenContract) (spender : string) (approved : BigNumber.t)
  (txFrom url : string) (params : ZeroExSwapAPIParams) :
  In (approve_awaitTransactionSuccessAsync token spender approved txFrom)
     (calls (trace w (swap buy sell amount fromAddress provider))) ->
  In (axios_get url params)
     (calls (trace w (swap buy sell amount fromAddress provider))) ->
  (forall d1 d2 : uint,
      In d1 (decimals_answers
               (trace w (swap buy sell amount fromAddress provider))) ->
      In d2 (decimals_answers
               (trace w (swap buy sell amount fromAddress provider))) ->
      d1 = d2) ->
  sellAmount params = BigNumber.toString approved.
Proof.
  explore; intros Ha; in_cases Ha.
  all: intros Hq; in_cases Hq.
  all: injection Ha as <- <- <- <-; injection Hq as <- <-.
  all: intros Hs.
  all: match goal with
       | H1 : Web3Wrapper.toBaseUnitAmount _ ?d1 = inr _,
         H2 : Web3Wrapper.toBaseUnitAmount _ ?d2 = inr _ |- _ =>
           assert (E : d1 = d2) by (apply Hs; auto 20);
           subst; rewrite H1 in H2; injection H2 as ->
       end.
  all: reflexivity.
Qed.

(** X10.  A run that completes has printed, in this order: the receipt of
    the approval when it approved, the banner of the generated transaction,
    the quote it received, the banner of the orders, the orders of that
    quote, and the message naming the hash of the receipt it waited for. *)
Theorem console_output_of_a_completed_run
  (w : World) (buy sell : ERC20TokenContract) (amount : number)
  (fromAddress : string) (provider : SupportedProvider) :
  outcome w (swap buy sell amount fromAddress provider) = Fulfilled tt ->
  exists (httpResponse : AxiosResponse) (receipt : TransactionReceipt)
         (first : list LogValue),
    logs (trace w (swap buy sell amount fromAddress provider))
    = (first
       ++ [LogString "Ethereum transaction generated by the 0x API: 👇";
           LogQuote (response_data httpResponse);
           LogString "Orders used to perform the swap 👇";
           LogOrders (Quote.orders (response_data httpResponse));
           LogString ("Transaction " ++ transactionHash receipt
                      ++ " was mined successfully")])%list
    /\ (exists url params,
           In (Awaited (axios_get url params) (inr httpResponse))
              (trace w (swap buy sell amount fromAddress provider)))
    /\ (exists client txHash,
           In (Awaited (awaitTransactionSuccessAsync client txHash) (inr receipt))
              (trace w (swap buy sell amount fromAddress provider)))
    /\ ((first = []
         /\ count KApprove (trace w (swap buy sell amount fromAddress provider))
            = 0%nat)
        \/ exists approved tx,
            first = [LogReceipt tx]
            /\ In (Awaited
                     (approve_awaitTransactionSuccessAsync sell proxy approved
                        fromAddress) (inr tx))
                  (trace w (swap buy sell amount fromAddress provider))).
Proof.
  explore; intros H; try discriminate H.
  - do 2 eexists. eexists [_]. split; [reflexivity |].
    split; [do 2 eexists; cbn; auto 20 |].
    split; [do 2 eexists; cbn; auto 20 |].
    right. do 2 eexists. split; [reflexivity | cbn; auto 20].
  - do 2 eexists. exists []. split; [reflexivity |].
    split; [do 2 eexists; cbn; auto 20 |].
    split; [do 2 eexists; cbn; auto 20 |].
    left. split; reflexivity.
Qed.

(** X11.  The only dialog a run shows is the alert 'Not Enough Balance', as
    its last event, and the run then throws the balance error. *)
Theorem alert_only_on_balance_error
  (w : World) (buy sell : ERC20TokenContract) (amount : number)
  (fromAddress : string) (provider : SupportedProvider) (message : string) :
  In (Performed (alert message))
     (trace w (swap buy sell amount fromAddress provider)) ->
  message = "Not Enough Balance"
  /\ outcome w (swap buy sell amount fromAddress provider)
     = Thrown (Error "Not Enough Balance")
  /\ exists pre,
      trace w (swap buy sell amount fromAddress provider)
      = (pre ++ [Performed (alert message)])%list.
Proof.
  explore; intros H; in_cases H.
  injection H as <-. repeat split.
  eexists [_; _]. reflexivity.
Qed.

(** X12.  The sell amount of a quote request is a decimal integer: read back,
    it is the number of base units the sell amount comes to with the
    decimals that the read just before the request returned. *)
Theorem sell_amount_is_a_decimal_integer
  (w : World) (buy sell : ERC20TokenContract) (amount : number)
  (fromAddress : string) (provider : SupportedProvider)
  (url : string) (params : ZeroExSwapAPIParams) :
  In (axios_get url params)
     (calls (trace w (swap buy sell amount fromAddress provider))) ->
  exists (d : uint) (z : Z) r,
    follows (Awaited (decimals_callAsync sell) (inr d))
            (Awaited (axios_get url params) r)
            (trace w (swap buy sell amount fromAddress provider))
    /\ parse_integer (sellAmount params) = Some z
    /\ (inject_Z z == amount * BigNumber.pow10 d)%Q.
Proof.
  explore; intros H; in_cases H.
  all: injection H as <- <-.
  all: match goal with
       | E : Web3Wrapper.toBaseUnitAmount _ ?d = inr ?base
         |- exists d' z r, follows _ (Awaited (axios_get _ _) _) _ /\ _ =>
           exists d, (BigNumber.to_Z base); eexists;
           split; [find_follows |];
           split; [cbn; apply toString_parse |];
           rewrite <- (toBaseUnitAmount_to_Z _ _ _ E);
           apply toBaseUnitAmount_exact, E
       end.
Qed.

(** X13.  The balance check is monotone: if a run with some balance throws
    no balance error, a run with a larger balance and the same decimals
    throws none either. *)
Theorem more_balance_never_fails_the_check
  (w w' : World) (buy sell : ERC20TokenContract) (amount : number)
  (fromAddress : string) (provider : SupportedProvider) (d b b' : uint) :
  w 0%nat (decimals_callAsync sell) = inr d ->
  w 1%nat (balanceOf_callAsync sell fromAddress) = inr b ->
  w' 0%nat (decimals_callAsync sell) = inr d ->
  w' 1%nat (balanceOf_callAsync sell fromAddress) = inr b' ->
  (b <= b')%N ->
  outcome w' (swap buy sell amount fromAddress provider)
  = Thrown (Error "Not Enough Balance") ->
  outcome w (swap buy sell amount fromAddress provider)
  = Thrown (Error "Not Enough Balance").
Proof.
  intros Hd Hb Hd' Hb' Hle H.
  apply (balance_error_iff w' buy sell amount fromAddress provider d b' Hd' Hb')
    in H.
  apply (balance_error_iff w buy sell amount fromAddress provider d b Hd Hb).
  apply Qle_lt_trans with (rounded_unit_amount b' d); [| exact H].
  apply rounded_unit_amount_monotone, Hle.
Qed.

End MoreProperties.

(** ** The introduction to the token wrapper *)

(** X14.  A transfer of [introToERC20TokenContract] goes to the token at the
    address of the walkthrough, built on the caller's provider; it moves 100
    tokens of 18 decimals from '0xMyAddress' to '0xSomeOtherAddress'; and it
    is issued only after the name, the decimals and the balance of
    '0xSomeAddress' were read and printed, in this order. *)
Theorem intro_transfer_after_three_reads
  (w : Intro.World) (web3Provider : SupportedProvider)
  (token : ERC20TokenContract) (recipient : string) (amount : BigNumber.t)
  (txFrom : string) :
  In (Intro.transfer_awaitTransactionSuccessAsync token recipient amount txFrom)
     (Intro.calls (Intro.trace w (Intro.introToERC20TokenContract web3Provider))) ->
  token = Build_ERC20TokenContract
            "0x48178164eB4769BB919414Adc980b659a634703E" web3Provider
  /\ recipient = "0xSomeOtherAddress"
  /\ txFrom = "0xMyAddress"
  /\ (amount == 100 * BigNumber.pow10 18%N)%Q
  /\ exists (name : string) (decimals balance : uint) r,
      Intro.trace w (Intro.introToERC20TokenContract web3Provider)
      = [Intro.Awaited (Intro.name_callAsync token) (inr name);
         Intro.Awaited (Intro.decimals_callAsync token) (inr decimals);
         Intro.Awaited (Intro.balanceOf_callAsync token "0xSomeAddress")
           (inr balance);
         Intro.Logged (Intro.LogName name);
         Intro.Logged (Intro.LogUint decimals);
         Intro.Logged (Intro.LogUint balance);
         Intro.Awaited
           (Intro.transfer_awaitTransactionSuccessAsync token recipient amount
              txFrom) r].
Proof.
  unfold Intro.trace, Intro.introToERC20TokenContract. cbn.
  repeat run_step; intros H; in_cases H.
  all: injection H as <- <- <- <-.
  all: repeat (split; [reflexivity |]).
  all: do 4 eexists; reflexivity.
Qed.

(** X15.  [introToERC20TokenContract] prints all three values it read or
    nothing: when one of the three reads is rejected the run is rejected
    with nothing printed and no transfer sent, and otherwise it has printed
    the name, the decimals and the balance it read and sent the transfer. *)
Theorem intro_prints_all_or_nothing
  (w : Intro.World) (web3Provider : SupportedProvider) :
  (Intro.logs (Intro.trace w (Intro.introToERC20TokenContract web3Provider)) = []
   /\ (forall c,
          In c (Intro.calls
                  (Intro.trace w (Intro.introToERC20TokenContract web3Provider))) ->
          Intro.is_transfer c = false)
   /\ exists e,
       Intro.outcome w (Intro.introToERC20TokenContract web3Provider)
       = Rejected e)
  \/ (exists (name : string) (decimals balance : uint) t',
         Intro.trace w (Intro.introToERC20TokenContract web3Provider)
         = Intro.Awaited
             (Intro.name_callAsync
                (Build_ERC20TokenContract
                   "0x48178164eB4769BB919414Adc980b659a634703E" web3Provider))
             (inr name)
           :: Intro.Awaited
                (Intro.decimals_callAsync
                   (Build_ERC20TokenContract
                      "0x48178164eB4769BB919414Adc980b659a634703E" web3Provider))
                (inr decimals)
           :: Intro.Awaited
                (Intro.balanceOf_callAsync
                   (Build_ERC20TokenContract
                      "0x48178164eB4769BB919414Adc980b659a634703E" web3Provider)
                   "0xSomeAddress")
                (inr balance)
           :: t'
         /\ Intro.logs (Intro.trace w (Intro.introToERC20TokenContract web3Provider))
            = [Intro.LogName name; Intro.LogUint decimals; Intro.LogUint balance]
         /\ exists c,
             In c (Intro.calls
                     (Intro.trace w (Intro.introToERC20TokenContract web3Provider)))
             /\ Intro.is_transfer c = true).
Proof.
  unfold Intro.trace, Intro.outcome, Intro.introToERC20TokenContract. cbn.
  repeat run_step.
  1-3: left; split; [reflexivity |];
    (split; [intros c H; in_cases H; subst c; reflexivity | eauto]).
  all: right; do 4 eexists; split; [reflexivity |];
    (split; [reflexivity |]); eexists; split; [cbn; auto 10 | reflexivity].
Qed.

(** ** The further properties at sample inputs *)

(** The two examples of the source's comment: 5 USDC (6 decimals) and 20.5
    DAI (18 decimals). *)
Example convert_5_usdc :
  outcome (Sample.world 6%N 0%N 0%N None)
    (convertValueFromHumanToEthereum Sample.dai 5%Q)
  = Fulfilled 5000000%Q.
Proof. reflexivity. Qed.

Example convert_20_5_dai :
  outcome (Sample.world 18%N 0%N 0%N None)
    (convertValueFromHumanToEthereum Sample.dai (205 # 10))
  = Fulfilled 20500000000000000000%Q.
Proof. reflexivity. Qed.

(** A balance equal to the sell amount, 1.004 tokens, fails the check: it is
    rounded to 1.00. *)
Example balance_equal_to_amount_fails_the_check :
  outcome (Sample.world 3%N 1004%N 0%N None) (Sample.swap (1004 # 1000))
  = Thrown (Error "Not Enough Balance").
Proof. reflexivity. Qed.

Lemma convert_reads_decimals_once_witness :
  whole_base_units 5%Q 6%N
  /\ exists base,
      outcome (Sample.world 6%N 0%N 0%N None)
        (convertValueFromHumanToEthereum Sample.dai 5%Q) = Fulfilled base
      /\ (base == 5 * BigNumber.pow10 6%N)%Q.
Proof.
  assert (W : whole_base_units 5%Q 6%N) by (exists 5000000%Z; reflexivity).
  split; [exact W |].
  exact (proj1 (proj2 (proj2 (convert_reads_decimals_once
                                (Sample.world 6%N 0%N 0%N None) Sample.dai 5%Q)
                         6%N eq_refl)) W).
Defined.

Lemma balance_error_at_cent_precision_witness :
  (3 <= 78)%N /\ (5 == 500 # 100)%Q /\ (5 < inject_Z (2 ^ 46))%Q
  /\ (outcome (Sample.world 3%N 4994%N 0%N None) (Sample.swap 5%Q)
      = Thrown (Error "Not Enough Balance")
      <-> (BigNumber.of_uint 4994%N / BigNumber.pow10 3%N < 5 - (1 # 200))%Q).
Proof.
  assert (L : (3 <= 78)%N) by discriminate.
  assert (E : (5 == 500 # 100)%Q) by reflexivity.
  assert (B : (5 < inject_Z (2 ^ 46))%Q) by reflexivity.
  split; [exact L |]. split; [exact E |]. split; [exact B |].
  exact (balance_error_at_cent_precision Sample.addresses
           (Sample.world 3%N 4994%N 0%N None) Sample.weth Sample.dai 5%Q
           Sample.me Sample.rpc 3%N 4994%N 500%Z eq_refl eq_refl L E B).
Defined.

Lemma balance_error_within_half_a_cent_witness :
  (3 <= 78)%N /\ (5 < inject_Z (2 ^ 46))%Q
  /\ (BigNumber.of_uint 4980%N / BigNumber.pow10 3%N < 5 - (3 # 200))%Q
  /\ outcome (Sample.world 3%N 4980%N 0%N None) (Sample.swap 5%Q)
     = Thrown (Error "Not Enough Balance").
Proof.
  assert (L : (3 <= 78)%N) by discriminate.
  assert (A : (5 < inject_Z (2 ^ 46))%Q) by reflexivity.
  assert (B : (BigNumber.of_uint 4980%N / BigNumber.pow10 3%N
               < 5 - (3 # 200))%Q) by reflexivity.
  split; [exact L |]. split; [exact A |]. split; [exact B |].
  exact (proj1 (balance_error_within_half_a_cent Sample.addresses
                  (Sample.world 3%N 4980%N 0%N None) Sample.weth Sample.dai 5%Q
                  Sample.me Sample.rpc 3%N 4980%N eq_refl eq_refl L) A B).
Defined.

Lemma approval_at_cent_precision_witness :
  outcome (Sample.world 3%N 10000%N 4994%N None) (Sample.swap 5%Q) = Fulfilled tt
  /\ (3 <= 78)%N /\ (5 == 500 # 100)%Q /\ (5 < inject_Z (2 ^ 46))%Q
  /\ (count KApprove
        (trace (Sample.world 3%N 10000%N 4994%N None) (Sample.swap 5%Q)) = 1%nat
      <-> (BigNumber.of_uint 4994%N / BigNumber.pow10 3%N < 5 - (1 # 200))%Q).
Proof.
  assert (L : (3 <= 78)%N) by discriminate.
  assert (E : (5 == 500 # 100)%Q) by reflexivity.
  assert (B : (5 < inject_Z (2 ^ 46))%Q) by reflexivity.
  split; [reflexivity |]. split; [exact L |]. split; [exact E |].
  split; [exact B |].
  exact (proj1 (approval_at_cent_precision Sample.addresses
                  (Sample.world 3%N 10000%N 4994%N None) Sample.weth Sample.dai
                  5%Q Sample.me Sample.rpc 3%N 4994%N 500%Z
                  eq_refl eq_refl eq_refl L E B)).
Defined.

Lemma nonpositive_amount_passes_both_checks_witness :
  (-5 <= 0)%Q
  /\ count KApprove
       (trace (Sample.world 18%N 0%N 0%N None) (Sample.swap (-5)%Q)) = 0%nat.
Proof.
  assert (L : (-5 <= 0)%Q) by discriminate.
  split; [exact L |].
  exact (proj2 (proj2 (nonpositive_amount_passes_both_checks Sample.addresses
                         (Sample.world 18%N 0%N 0%N None) Sample.weth Sample.dai
                         (-5)%Q Sample.me Sample.rpc L))).
Defined.

Lemma invalid_unit_amount_stops_before_quote_witness :
  outcome (Sample.world 3%N 9000%N 9000%N None) (Sample.swap (1 # 3))
  = Thrown (InvalidUnitAmount (1 # 3))
  /\ count KHttpGet
       (trace (Sample.world 3%N 9000%N 9000%N None) (Sample.swap (1 # 3)))
     = 0%nat.
Proof.
  split; [reflexivity |].
  exact (proj1 (proj2 (invalid_unit_amount_stops_before_quote Sample.addresses
                         (Sample.world 3%N 9000%N 9000%N None) Sample.weth
                         Sample.dai (1 # 3) (1 # 3) Sample.me Sample.rpc
                         eq_refl))).
Defined.

Lemma only_the_sell_token_is_called_witness :
  In (balanceOf_callAsync Sample.dai Sample.me)
     (calls (trace (Sample.world 3%N 10000%N 0%N None) (Sample.swap 5%Q)))
  /\ (forall token,
         token_of (balanceOf_callAsync Sample.dai Sample.me) = Some token ->
         token = Sample.dai).
Proof.
  assert (H : In (balanceOf_callAsync Sample.dai Sample.me)
                 (calls (trace (Sample.world 3%N 10000%N 0%N None)
                           (Sample.swap 5%Q)))).
  { vm_compute. tauto. }
  split; [exact H |].
  exact (proj1 (only_the_sell_token_is_called Sample.addresses
                  (Sample.world 3%N 10000%N 0%N None) Sample.weth Sample.dai
                  5%Q Sample.me Sample.rpc _ H)).
Defined.

Lemma receipt_wait_follows_submission_witness :
  In (awaitTransactionSuccessAsync {| provider_of := Sample.rpc |} "0xb2")
     (calls (trace (Sample.world 3%N 10000%N 0%N None) (Sample.swap 5%Q)))
  /\ {| provider_of := Sample.rpc |} = {| provider_of := Sample.rpc |}.
Proof.
  assert (H : In (awaitTransactionSuccessAsync
                    {| provider_of := Sample.rpc |} "0xb2")
                 (calls (trace (Sample.world 3%N 10000%N 0%N None)
                           (Sample.swap 5%Q)))).
  { vm_compute. tauto. }
  split; [exact H |].
  exact (proj1 (receipt_wait_follows_submission Sample.addresses
                  (Sample.world 3%N 10000%N 0%N None) Sample.weth Sample.dai
                  5%Q Sample.me Sample.rpc _ _ H)).
Defined.

Lemma approved_amount_is_quoted_amount_witness :
  In (approve_awaitTransactionSuccessAsync Sample.dai
        (erc20Proxy (Sample.addresses Kovan)) 5000%Q Sample.me)
     (calls (trace (Sample.world 3%N 10000%N 0%N None) (Sample.swap 5%Q)))
  /\ In (axios_get "https://kovan.api.0x.org/swap/v0/quote"
           {| buyToken := address Sample.weth;
              sellToken := address Sample.dai;
              sellAmount := "5000";
              takerAddress := Sample.me |})
        (calls (trace (Sample.world 3%N 10000%N 0%N None) (Sample.swap 5%Q)))
  /\ "5000" = BigNumber.toString 5000%Q.
Proof.
  assert (Ha : In (approve_awaitTransactionSuccessAsync Sample.dai
                     (erc20Proxy (Sample.addresses Kovan)) 5000%Q Sample.me)
                  (calls (trace (Sample.world 3%N 10000%N 0%N None)
                            (Sample.swap 5%Q)))).
  { vm_compute. tauto. }
  assert (Hq : In (axios_get "https://kovan.api.0x.org/swap/v0/quote"
                     {| buyToken := address Sample.weth;
                        sellToken := address Sample.dai;
                        sellAmount := "5000";
                        takerAddress := Sample.me |})
                  (calls (trace (Sample.world 3%N 10000%N 0%N None)
                            (Sample.swap 5%Q)))).
  { vm_compute. tauto. }
  split; [exact Ha |]. split; [exact Hq |].
  apply (approved_amount_is_quoted_amount Sample.addresses
           (Sample.world 3%N 10000%N 0%N None) Sample.weth Sample.dai 5%Q
           Sample.me Sample.rpc _ _ _ _ _ _ Ha Hq).
  intros d1 d2 H1 H2. vm_compute in H1, H2.
  destruct H1 as [<- | [<- | [<- | []]]];
    destruct H2 as [<- | [<- | [<- | []]]]; reflexivity.
Defined.

Lemma console_output_of_a_completed_run_witness :
  outcome (Sample.world 3%N 10000%N 10000%N None) (Sample.swap 5%Q) = Fulfilled tt
  /\ exists (httpResponse : AxiosResponse) (receipt : TransactionReceipt)
            (first : list LogValue),
      logs (trace (Sample.world 3%N 10000%N 10000%N None) (Sample.swap 5%Q))
      = (first
         ++ [LogString "Ethereum transaction generated by the 0x API: 👇";
             LogQuote (response_data httpResponse);
             LogString "Orders used to perform the swap 👇";
             LogOrders (Quote.orders (response_data httpResponse));
             LogString ("Transaction " ++ transactionHash receipt
                        ++ " was mined successfully")])%list.
Proof.
  split; [reflexivity |].
  destruct (console_output_of_a_completed_run Sample.addresses
              (Sample.world 3%N 10000%N 10000%N None) Sample.weth Sample.dai
              5%Q Sample.me Sample.rpc eq_refl)
    as [httpResponse [receipt [first [H _]]]].
  exists httpResponse, receipt, first. exact H.
Defined.

Lemma alert_only_on_balance_error_witness :
  In (Performed (alert "Not Enough Balance"))
     (trace (Sample.world 3%N 4994%N 0%N None) (Sample.swap 5%Q))
  /\ outcome (Sample.world 3%N 4994%N 0%N None) (Sample.swap 5%Q)
     = Thrown (Error "Not Enough Balance").
Proof.
  assert (H : In (Performed (alert "Not Enough Balance"))
                 (trace (Sample.world 3%N 4994%N 0%N None) (Sample.swap 5%Q))).
  { vm_compute. tauto. }
  split; [exact H |].
  exact (proj1 (proj2 (alert_only_on_balance_error Sample.addresses
                         (Sample.world 3%N 4994%N 0%N None) Sample.weth
                         Sample.dai 5%Q Sample.me Sample.rpc _ H))).
Defined.

Lemma sell_amount_is_a_decimal_integer_witness :
  In (axios_get "https://kovan.api.0x.org/swap/v0/quote"
        {| buyToken := address Sample.weth;
           sellToken := address Sample.dai;
           sellAmount := "5000";
           takerAddress := Sample.me |})
     (calls (trace (Sample.world 3%N 10000%N 0%N None) (Sample.swap 5%Q)))
  /\ exists (d : uint) (z : Z),
      parse_integer "5000" = Some z
      /\ (inject_Z z == 5 * BigNumber.pow10 d)%Q.
Proof.
  assert (H : In (axios_get "https://kovan.api.0x.org/swap/v0/quote"
                    {| buyToken := address Sample.weth;
                       sellToken := address Sample.dai;
                       sellAmount := "5000";
                       takerAddress := Sample.me |})
                 (calls (trace (Sample.world 3%N 10000%N 0%N None)
                           (Sample.swap 5%Q)))).
  { vm_compute. tauto. }
  split; [exact H |].
  destruct (sell_amount_is_a_decimal_integer Sample.addresses
              (Sample.world 3%N 10000%N 0%N None) Sample.weth Sample.dai 5%Q
              Sample.me Sample.rpc _ _ H) as [d [z [_ [_ [P E]]]]].
  exists d, z. split; [exact P | exact E].
Defined.

Lemma more_balance_never_fails_the_check_witness :
  (4000 <= 4994)%N
  /\ outcome (Sample.world 3%N 4994%N 0%N None) (Sample.swap 5%Q)
     = Thrown (Error "Not Enough Balance")
  /\ outcome (Sample.world 3%N 4000%N 0%N None) (Sample.swap 5%Q)
     = Thrown (Error "Not Enough Balance").
Proof.
  assert (L : (4000 <= 4994)%N) by discriminate.
  split; [exact L |]. split; [reflexivity |].
  exact (more_balance_never_fails_the_check Sample.addresses
           (Sample.world 3%N 4000%N 0%N None) (Sample.world 3%N 4994%N 0%N None)
           Sample.weth Sample.dai 5%Q Sample.me Sample.rpc 3%N 4000%N 4994%N
           eq_refl eq_refl eq_refl eq_refl L eq_refl).
Defined.

Lemma intro_transfer_after_three_reads_witness :
  In (Intro.transfer_awaitTransactionSuccessAsync
        (Build_ERC20TokenContract
           "0x48178164eB4769BB919414Adc980b659a634703E" Sample.rpc)
        "0xSomeOtherAddress" 100000000000000000000%Q "0xMyAddress")
     (Intro.calls
        (Intro.trace (Intro.sample_world None)
           (Intro.introToERC20TokenContract Sample.rpc)))
  /\ (100000000000000000000 == 100 * BigNumber.pow10 18%N)%Q.
Proof.
  assert (H : In (Intro.transfer_awaitTransactionSuccessAsync
                    (Build_ERC20TokenContract
                       "0x48178164eB4769BB919414Adc980b659a634703E" Sample.rpc)
                    "0xSomeOtherAddress" 100000000000000000000%Q "0xMyAddress")
                 (Intro.calls
                    (Intro.trace (Intro.sample_world None)
                       (Intro.introToERC20TokenContract Sample.rpc)))).
  { vm_compute. tauto. }
  split; [exact H |].
  exact (proj1 (proj2 (proj2 (proj2
           (intro_transfer_after_three_reads (Intro.sample_world None)
              Sample.rpc _ _ _ _ H))))).
Defined.

(** A rejected balance read: nothing is printed and nothing transferred. *)
Example intro_rejected_balance_read :
  Intro.logs
    (Intro.trace (Intro.sample_world (Some 2%nat))
       (Intro.introToERC20TokenContract Sample.rpc)) = []
  /\ Intro.outcome (Intro.sample_world (Some 2%nat))
       (Intro.introToERC20TokenContract Sample.rpc)
     = Rejected (Error "rejected").
Proof. split; reflexivity. Qed.
